(** * BatterX device: component registry and multi-component update

    A shallow embedding of [packages/modules/devices/batterx/device.py]
    (class [Device], [read_legacy], [_add_component]) and the properties
    of its component collection and update cycle.

    Python objects are modelled by explicit state passing: the one [Device]
    object a call works on and the chronological list of the effects the
    call has on its collaborators (log lines, update slots, HTTP requests,
    component updates, value-store writes).  Exceptions are results. *)

From Stdlib Require Import ZArith List String Ascii Bool Lia.
From Stdlib Require Import DecimalString DecimalZ SpecFloat.
Import ListNotations.
Open Scope string_scope.
Open Scope list_scope.
Open Scope Z_scope.

(** String concatenation, Python's [+] on [str]. *)
Infix "+++" := String.append (right associativity, at level 60).

(** ** Python values, exceptions, results *)

(** Values found in an untyped configuration mapping: a str, an int or
    [None].  These are hashable; a list or a nested mapping, which a raw
    mapping can hold as well and which cannot be looked up in a dict, is
    no value of this type. *)
Inductive pyval :=
| PStr (s : string)
| PInt (z : Z)
| PNone.

Definition raw_dict := list (string * pyval).

(** The exceptions the code raises itself or through a lookup, and, as
    [Foreign], those raised inside a collaborator. *)
Inductive exn :=
| KeyError (key : pyval)
| AttributeError (msg : string)
| TypeError (msg : string)
| RuntimeError (msg : string)
| OverflowError (msg : string)
| Exception_ (msg : string)
| Foreign (origin msg : string).

Inductive result (A : Type) :=
| Ok (a : A)
| Raise (e : exn).
Arguments Ok {A} a.
Arguments Raise {A} e.

(** [str(x)] for an [Optional[int]].  The decimal numeral of any int is
    given: a limit on the number of digits, as some interpreters set for
    this conversion, is not modelled. *)
Definition str_int (z : Z) : string := NilZero.string_of_int (Z.to_int z).

Definition str_id (i : option Z) : string :=
  match i with
  | Some z => str_int z
  | None => "None"
  end.

(** [sep.join(xs)] *)
Fixpoint join (sep : string) (xs : list string) : string :=
  match xs with
  | [] => ""
  | [x] => x
  | x :: rest => x +++ sep +++ join sep rest
  end.

(** [a + b] where [a] is a [str]. *)
Definition str_add (a : string) (b : pyval) : result string :=
  match b with
  | PStr s => Ok (a +++ s)
  | _ => Raise (TypeError "can only concatenate str to str")
  end.

(** ** Numeric readings

    A reading decoded from the response is a Python [int] or [float];
    floats are IEEE 754 binary64 values, given here by the standard
    library's specification of them. *)

Definition prec : Z := 53.
Definition emax : Z := 1024.

Inductive numeric :=
| NInt (z : Z)
| NFloat (f : spec_float).

(** [float(z)]: the nearest binary64 value, [OverflowError] beyond the range. *)
Definition float_of_int (z : Z) : result spec_float :=
  match binary_normalize prec emax z 0 false with
  | S754_infinity _ => Raise (OverflowError "int too large to convert to float")
  | f => Ok f
  end.

(** [a + b] on readings. *)
Definition py_add (a b : numeric) : result numeric :=
  match a, b with
  | NInt x, NInt y => Ok (NInt (x + y))
  | NFloat x, NFloat y => Ok (NFloat (SFadd prec emax x y))
  | NInt x, NFloat y =>
      match float_of_int x with
      | Ok fx => Ok (NFloat (SFadd prec emax fx y))
      | Raise e => Raise e
      end
  | NFloat x, NInt y =>
      match float_of_int y with
      | Ok fy => Ok (NFloat (SFadd prec emax x fy))
      | Raise e => Raise e
      end
  end.

(** ** Configuration data (modules.devices.batterx.config) *)

(** [ip_address] is a str, as the configuration class declares it and as
    line 61 of device.py needs it to build the address of the request. *)
Record BatterXConfiguration := {
  ip_address : string
}.

Record BatterX := {
  bx_name : string;
  bx_type : string;
  bx_id : Z;
  bx_configuration : BatterXConfiguration
}.

(** The component setups ([BatterXBatSetup], [BatterXCounterSetup],
    [BatterXInverterSetup], ...) share this shape. *)
Record component_setup := {
  setup_name : string;
  setup_type : string;
  setup_id : option Z;
  setup_configuration : raw_dict
}.

Definition with_id (c : component_setup) (num : option Z) : component_setup :=
  {| setup_name := setup_name c;
     setup_type := setup_type c;
     setup_id := num;
     setup_configuration := setup_configuration c |}.

Definition with_ip_address (c : BatterX) (ip : string) : BatterX :=
  {| bx_name := bx_name c;
     bx_type := bx_type c;
     bx_id := bx_id c;
     bx_configuration := {| ip_address := ip |} |}.

(** A configuration arrives as an untyped mapping or as the dataclass. *)
Inductive config_input (T : Type) :=
| FromDict (d : raw_dict)
| FromDataclass (t : T).
Arguments FromDict {T} d.
Arguments FromDataclass {T} t.

(** ** Component classes, component modules and the two tables *)

Inductive component_class :=
| BatterXBat
| BatterXCounter
| BatterXInverter.

Inductive component_module :=
| bat
| counter
| inverter
| external_inverter.

Definition component_class_eqb (a b : component_class) : bool :=
  match a, b with
  | BatterXBat, BatterXBat
  | BatterXCounter, BatterXCounter
  | BatterXInverter, BatterXInverter => true
  | _, _ => false
  end.

(** A component instance: what its constructor was given. *)
Record component := {
  comp_class : component_class;
  comp_device_id : Z;
  comp_config : component_setup
}.

Definition isinstance (c : component) (classes : list component_class) : bool :=
  existsb (component_class_eqb (comp_class c)) classes.

Definition COMPONENT_TYPE_TO_CLASS : list (string * component_class) :=
  [ ("bat", BatterXBat);
    ("counter", BatterXCounter);
    ("inverter", BatterXInverter) ].

Definition COMPONENT_TYPE_TO_MODULE : list (string * component_module) :=
  [ ("bat", bat);
    ("counter", counter);
    ("inverter", inverter);
    ("external_inverter", external_inverter) ].

(** ** Dictionaries

    A [dict] with [str] keys keeps its entries in insertion order; storing
    under an existing key replaces the value where it stands. *)

Section Dict.
Context {V : Type}.

Fixpoint lookup (d : list (string * V)) (k : string) : option V :=
  match d with
  | [] => None
  | (k', v) :: rest => if String.eqb k k' then Some v else lookup rest k
  end.

Fixpoint setitem (d : list (string * V)) (k : string) (v : V) : list (string * V) :=
  match d with
  | [] => [(k, v)]
  | (k', v') :: rest =>
      if String.eqb k k' then (k', v) :: rest else (k', v') :: setitem rest k v
  end.

Definition keys (d : list (string * V)) : list string := map fst d.
Definition values (d : list (string * V)) : list V := map snd d.

(** [k in d], for any Python value [k]. *)
Definition contains (d : list (string * V)) (k : pyval) : bool :=
  match k with
  | PStr s => match lookup d s with Some _ => true | None => false end
  | _ => false
  end.

(** [d[k]] *)
Definition getitem (d : list (string * V)) (k : pyval) : result V :=
  match k with
  | PStr s => match lookup d s with Some v => Ok v | None => Raise (KeyError k) end
  | _ => Raise (KeyError k)
  end.
End Dict.

Definition pydict := list (string * component).

(** ** Collaborators, effects and the object state *)

Section Model.
(** The HTTP response object, the decoded document and the state an
    inverter publishes are opaque here. *)
Variables response payload inverter_state : Type.

(** What device.py imports and calls but does not define.  Each field is
    the call named in its comment; [None] and [Ok] are normal returns. *)
Record collaborators := {
  (* dataclass_from_dict(BatterX, device_config) *)
  dataclass_from_dict_BatterX : config_input BatterX -> result BatterX;
  (* dataclass_from_dict(<module>.component_descriptor.configuration_factory, component_config) *)
  dataclass_from_dict_setup :
    component_module -> config_input component_setup -> result component_setup;
  (* BatterX() *)
  BatterX_default : BatterX;
  (* <module>.component_descriptor.configuration_factory() *)
  configuration_factory : component_module -> component_setup;
  (* <class>(device_id, component_config) *)
  component_init : component_class -> Z -> component_setup -> option exn;
  (* repr(component) *)
  component_repr : component -> string;
  (* component.update(resp_json) *)
  component_update : component -> payload -> option exn;
  (* component.get_power(resp_json) *)
  get_power : component -> payload -> result numeric;
  (* what component.get_inverter_state(power) computes *)
  inverter_state_of : component -> numeric -> result inverter_state;
  (* req.get_http_session().get(url, timeout=t) *)
  session_get : string -> Z -> result response;
  (* response.json() *)
  response_json : response -> result payload
}.

(** The effects of a call, as its collaborators see them. *)
Inductive event :=
| LogDebug (msg : string)
| LogWarning (msg : string)
| LogException (msg : string)
| SlotAcquired (key : string)
| SlotReleased (key : string) (failure : option exn)
| HttpGet (url : string) (timeout : Z)
| Update (c : component) (resp : payload)
| StoreSet (num : option Z) (s : inverter_state).

(** A [Device] object: an attribute is absent until it is assigned. *)
Record Device := {
  components : option pydict;
  device_config : option BatterX
}.

Definition Device_new : Device :=
  {| components := None; device_config := None |}.

Definition constructed (comps : pydict) (cfg : BatterX) : Device :=
  {| components := Some comps; device_config := Some cfg |}.

Record state := {
  self : Device;
  trace : list event
}.

(** *** The state and exception monad *)

Definition M (A : Type) : Type := state -> state * result A.

Definition ret {A} (a : A) : M A := fun s => (s, Ok a).

Definition bind {A B} (m : M A) (k : A -> M B) : M B :=
  fun s =>
    match m s with
    | (s', Ok a) => k a s'
    | (s', Raise e) => (s', Raise e)
    end.

Definition raise {A} (e : exn) : M A := fun s => (s, Raise e).

Definition lift {A} (r : result A) : M A := fun s => (s, r).

Definition emit (e : event) : M unit :=
  fun s => ({| self := self s; trace := trace s ++ [e] |}, Ok tt).

Definition emit_all (es : list event) : M unit :=
  fun s => ({| self := self s; trace := trace s ++ es |}, Ok tt).

Local Notation "x <- m ;; k" := (bind m (fun x => k))
  (at level 61, m at next level, right associativity).
Local Notation "m ;; k" := (bind m (fun _ => k))
  (at level 61, right associativity).

(** [try: body / except Exception: handler] *)
Definition try_except {A} (body : M A) (handler : exn -> M A) : M A :=
  fun s =>
    match body s with
    | (s', Ok a) => (s', Ok a)
    | (s', Raise e) => handler e s'
    end.

(** [self.components], [self.device_config] and their assignment. *)
Definition getattr_components : M pydict :=
  fun s =>
    match components (self s) with
    | Some d => (s, Ok d)
    | None => (s, Raise (AttributeError "'Device' object has no attribute 'components'"))
    end.

Definition getattr_device_config : M BatterX :=
  fun s =>
    match device_config (self s) with
    | Some c => (s, Ok c)
    | None => (s, Raise (AttributeError "'Device' object has no attribute 'device_config'"))
    end.

Definition setattr_components (d : pydict) : M unit :=
  fun s =>
    ({| self := {| components := Some d; device_config := device_config (self s) |};
        trace := trace s |}, Ok tt).

Definition setattr_device_config (c : BatterX) : M unit :=
  fun s =>
    ({| self := {| components := components (self s); device_config := Some c |};
        trace := trace s |}, Ok tt).

(** *** Context managers and the [with] statement *)

Record context_manager := {
  cm_enter : M unit;
  cm_exit : option exn -> M bool
}.

(** [with cm: body]: the exit runs on every way out of the body; an
    exception of the body propagates unless the exit returns true. *)
Definition with_ (cm : context_manager) (body : M unit) : M unit :=
  cm_enter cm ;;
  (fun s =>
     match body s with
     | (s', Ok _) => (_ <- cm_exit cm None ;; ret tt) s'
     | (s', Raise e) =>
         (suppress <- cm_exit cm (Some e) ;;
          if suppress : bool then ret tt else raise e) s'
     end).

(** Modelled from the spec: [MultiComponentUpdateContext]
    (modules/common/component_context.py) is not among the sources.
    Spec 4.4: on Enter an update slot is acquired for every component
    currently in the collection (none for an empty one); on Exit every
    acquired slot is released exactly once, reporting success or the
    captured failure; spec 7: cycle-time errors are contained within the
    transaction and not thrown further. *)
Definition MultiComponentUpdateContext (device_components : pydict) : context_manager :=
  let slots := keys device_components in
  {| cm_enter := emit_all (map SlotAcquired slots);
     cm_exit := fun exception =>
       emit_all (map (fun k => SlotReleased k exception) slots) ;; ret true |}.

(** *** Iterating a dict

    The iterator walks the live dict by position; every step (the one
    that finds the end too) first checks that the dict still has the
    size it had when the iteration began. *)
Fixpoint dict_iter (used remaining pos : nat)
    (body : string * component -> M unit) : M unit :=
  d <- getattr_components ;;
  if negb (Nat.eqb (List.length d) used)
  then raise (RuntimeError "dictionary changed size during iteration")
  else
    match remaining with
    | O => ret tt
    | S remaining' =>
        match nth_error d pos with
        | Some item => body item ;; dict_iter used remaining' (S pos) body
        | None => ret tt
        end
    end.

Definition for_in_dict (body : string * component -> M unit) : M unit :=
  d <- getattr_components ;;
  dict_iter (List.length d) (List.length d) O body.

(** [str(d)] for the component dict. *)
Definition str_dict (repr : component -> string) (d : pydict) : string :=
  "{" +++ join ", " (map (fun kv => "'" +++ fst kv +++ "': " +++ repr (snd kv)) d) +++ "}".

Variable E : collaborators.

(** [cls(device_id, component_config)] *)
Definition construct (cls : component_class) (device_id : Z)
    (component_config : component_setup) : M component :=
  match component_init E cls device_id component_config with
  | None => ret {| comp_class := cls;
                   comp_device_id := device_id;
                   comp_config := component_config |}
  | Some e => raise e
  end.

(** [component.update(resp_json)] *)
Definition call_update (c : component) (resp_json : payload) : M unit :=
  emit (Update c resp_json) ;;
  match component_update E c resp_json with
  | None => ret tt
  | Some e => raise e
  end.

(** [req.get_http_session().get(url, timeout=t).json()] *)
Definition get_json (url : string) (timeout : Z) : M payload :=
  emit (HttpGet url timeout) ;;
  r <- lift (session_get E url timeout) ;;
  lift (response_json E r).

(** ** class Device *)

(* device.py, lines 30-35 *)
Definition __init__ (device_config : config_input BatterX) : M unit :=
  setattr_components [] ;;
  try_except
    (cfg <- lift (dataclass_from_dict_BatterX E device_config) ;;
     setattr_device_config cfg)
    (fun _ =>
       cfg <- getattr_device_config ;;
       emit (LogException ("Fehler im Modul " +++ bx_name cfg))).

(* device.py, lines 37-54 *)
Definition add_component (component_config : config_input component_setup) : M unit :=
  component_type <-
    lift (match component_config with
          | FromDict d => getitem d (PStr "type")
          | FromDataclass c => Ok (PStr (setup_type c))
          end) ;;
  module <- lift (getitem COMPONENT_TYPE_TO_MODULE component_type) ;;
  component_config <- lift (dataclass_from_dict_setup E module component_config) ;;
  if contains COMPONENT_TYPE_TO_CLASS component_type then
    cls <- lift (getitem COMPONENT_TYPE_TO_CLASS component_type) ;;
    cfg <- getattr_device_config ;;
    c <- construct cls (bx_id cfg) component_config ;;
    d <- getattr_components ;;
    setattr_components (setitem d ("component" +++ str_id (setup_id component_config)) c)
  else
    msg <- lift (str_add "illegal component type " component_type) ;;
    raise (Exception_ (msg +++ ". Allowed values: "
                           +++ join "," (keys COMPONENT_TYPE_TO_CLASS))).

(* device.py, lines 56-69 *)
Definition update : M unit :=
  d <- getattr_components ;;
  emit (LogDebug ("Start device reading " +++ str_dict (component_repr E) d)) ;;
  d <- getattr_components ;;
  match d with
  | _ :: _ =>
      with_ (MultiComponentUpdateContext d)
        (cfg <- getattr_device_config ;;
         resp_json <-
           get_json ("http://" +++ ip_address (bx_configuration cfg)
                               +++ "/api.php?get=currentstate") 5 ;;
         for_in_dict (fun item =>
           d <- getattr_components ;;
           c <- lift (getitem d (PStr (fst item))) ;;
           call_update c resp_json))
  | [] =>
      cfg <- getattr_device_config ;;
      emit (LogWarning (bx_name cfg +++
        ": Es konnten keine Werte gelesen werden, da noch keine Komponenten konfiguriert wurden."))
  end.

(** ** The legacy entry point *)

(* device.py, lines 118-128 *)
Definition _add_component (component_type : string) (num : option Z) : M unit :=
  if contains COMPONENT_TYPE_TO_MODULE (PStr component_type) then
    module <- lift (getitem COMPONENT_TYPE_TO_MODULE (PStr component_type)) ;;
    let component_config := configuration_factory E module in
    let component_config := with_id component_config num in
    add_component (FromDataclass component_config)
  else
    raise (Exception_ ("illegal component type " +++ component_type
                         +++ ". Allowed values: "
                         +++ join "," (keys COMPONENT_TYPE_TO_MODULE))).

(** Modelled from the spec: [get_inverter_state] is a method of the
    inverter component (modules/devices/batterx/inverter.py), which is
    not among the sources.  Spec 4.2 and 4.5: what is derived from a
    reading is a pure function of it, deterministic, with no I/O and no
    hidden state. *)
Definition get_inverter_state (c : component) (power : numeric) : result inverter_state :=
  inverter_state_of E c power.

(** The combining step of lines 112-115:
    [component.get_inverter_state(power + power_ext)]. *)
Definition combine (c : component) (power power_ext : numeric) : result inverter_state :=
  match py_add power power_ext with
  | Ok total => get_inverter_state c total
  | Raise e => Raise e
  end.

Definition option_string_eqb (o : option string) (s : string) : bool :=
  match o with
  | Some x => String.eqb x s
  | None => false
  end.

(* device.py, lines 88-98: the device and its components *)
Definition read_legacy_setup (component_type ip_address : string) (num : option Z)
    (evu_counter bat_module : option string) (ext_inverter : Z) : M unit :=
  let device_config := with_ip_address (BatterX_default E) ip_address in
  (fun s => __init__ (FromDataclass device_config)
              {| self := Device_new; trace := trace s |}) ;;
  _add_component component_type num ;;
  (if option_string_eqb evu_counter "bezug_batterx"
   then _add_component "counter" (Some 0) else ret tt) ;;
  (if option_string_eqb bat_module "speicher_batterx"
   then _add_component "bat" (Some 3) else ret tt) ;;
  emit (LogDebug ("BatterX IP-Adresse: " +++ ip_address)) ;;
  emit (LogDebug ("BatterX externer WR: " +++ str_int ext_inverter)).

(* device.py, lines 104-115: the body of the loop *)
Definition read_legacy_dispatch (num : option Z) (ext_inverter : Z)
    (resp_json : payload) (item : string * component) : M unit :=
  let component := snd item in
  if isinstance component [BatterXBat; BatterXCounter] then
    call_update component resp_json
  else if isinstance component [BatterXInverter] then
    if ext_inverter =? 0 then
      call_update component resp_json
    else
      _add_component "external_inverter" (Some 4) ;;
      power <- lift (get_power E component resp_json) ;;
      d <- getattr_components ;;
      c4 <- lift (getitem d (PStr "component4")) ;;
      power_ext <- lift (get_power E c4 resp_json) ;;
      state_ <- lift (combine component power power_ext) ;;
      emit (StoreSet num state_)
  else ret tt.

(* device.py, lines 80-115 *)
Definition read_legacy (component_type ip_address : string) (num : option Z)
    (evu_counter bat_module : option string) (ext_inverter : Z) : M unit :=
  read_legacy_setup component_type ip_address num evu_counter bat_module ext_inverter ;;
  d <- getattr_components ;;
  with_ (MultiComponentUpdateContext d)
    (resp_json <-
       get_json ("http://" +++ ip_address +++ "/api.php?get=currentstate") 5 ;;
     for_in_dict (read_legacy_dispatch num ext_inverter resp_json)).

End Model.

Arguments collaborators : clear implicits.
Arguments event : clear implicits.
Arguments state : clear implicits.
Arguments M : clear implicits.
Arguments context_manager : clear implicits.
Arguments LogDebug {payload inverter_state} msg.
Arguments LogWarning {payload inverter_state} msg.
Arguments LogException {payload inverter_state} msg.
Arguments SlotAcquired {payload inverter_state} key.
Arguments SlotReleased {payload inverter_state} key failure.
Arguments HttpGet {payload inverter_state} url timeout.
Arguments Update {payload inverter_state} c resp.
Arguments StoreSet {payload inverter_state} num s.
Arguments Build_state {payload inverter_state} self trace.
Arguments self {payload inverter_state} s.
Arguments trace {payload inverter_state} s.
Arguments ret {payload inverter_state A} a _.
Arguments bind {payload inverter_state A B} m k _.
Arguments raise {payload inverter_state A} e _.
Arguments lift {payload inverter_state A} r _.
Arguments emit {payload inverter_state} e _.
Arguments emit_all {payload inverter_state} es _.
Arguments try_except {payload inverter_state A} body handler _.
Arguments getattr_components {payload inverter_state} _.
Arguments getattr_device_config {payload inverter_state} _.
Arguments setattr_components {payload inverter_state} d _.
Arguments setattr_device_config {payload inverter_state} c _.
Arguments cm_enter {payload inverter_state} c _.
Arguments cm_exit {payload inverter_state} c _ _.
Arguments with_ {payload inverter_state} cm body _.
Arguments MultiComponentUpdateContext {payload inverter_state} device_components.
Arguments dict_iter {payload inverter_state} used remaining pos body _.
Arguments for_in_dict {payload inverter_state} body _.
Arguments construct {response payload inverter_state} E cls device_id component_config _.
Arguments call_update {response payload inverter_state} E c resp_json _.
Arguments get_json {response payload inverter_state} E url timeout _.
Arguments __init__ {response payload inverter_state} E device_config _.
Arguments add_component {response payload inverter_state} E component_config _.
Arguments update {response payload inverter_state} E _.
Arguments _add_component {response payload inverter_state} E component_type num _.
Arguments get_inverter_state {response payload inverter_state} E c power.
Arguments combine {response payload inverter_state} E c power power_ext.
Arguments read_legacy_setup {response payload inverter_state} E
  component_type ip_address num evu_counter bat_module ext_inverter _.
Arguments read_legacy_dispatch {response payload inverter_state} E
  num ext_inverter resp_json item _.
Arguments read_legacy {response payload inverter_state} E
  component_type ip_address num evu_counter bat_module ext_inverter _.

(** ** Reading a trace *)

Section Traces.
Context {payload inverter_state : Type}.

(** The requests made: URL and timeout of every [HttpGet]. *)
Fixpoint fetches (t : list (event payload inverter_state)) : list (string * Z) :=
  match t with
  | [] => []
  | HttpGet url timeout :: rest => (url, timeout) :: fetches rest
  | _ :: rest => fetches rest
  end.

(** The [update] calls made: the component and the document it was given. *)
Fixpoint updates (t : list (event payload inverter_state)) : list (component * payload) :=
  match t with
  | [] => []
  | Update c resp :: rest => (c, resp) :: updates rest
  | _ :: rest => updates rest
  end.

(** The slots released, with what each reported. *)
Fixpoint released (t : list (event payload inverter_state)) : list (string * option exn) :=
  match t with
  | [] => []
  | SlotReleased k r :: rest => (k, r) :: released rest
  | _ :: rest => released rest
  end.

(** The slots acquired. *)
Fixpoint acquired (t : list (event payload inverter_state)) : list string :=
  match t with
  | [] => []
  | SlotAcquired k :: rest => k :: acquired rest
  | _ :: rest => acquired rest
  end.

(** The states device.py itself writes to the inverter value store, one
    for each time line 115 is carried out.  What a component publishes
    inside its own [update] happens in that collaborator and is no event
    of this list. *)
Fixpoint published (t : list (event payload inverter_state)) : list (option Z * inverter_state) :=
  match t with
  | [] => []
  | StoreSet num s :: rest => (num, s) :: published rest
  | _ :: rest => published rest
  end.

(** The warnings logged. *)
Fixpoint warnings (t : list (event payload inverter_state)) : list string :=
  match t with
  | [] => []
  | LogWarning msg :: rest => msg :: warnings rest
  | _ :: rest => warnings rest
  end.
End Traces.

(** The components of a collection that a dispatch reaches when each
    [update] that raises ends it: those up to and including the first one
    whose [update] raises. *)
Fixpoint reached {payload : Type} (upd : component -> payload -> option exn)
    (resp : payload) (cs : list component) : list component :=
  match cs with
  | [] => []
  | c :: rest =>
      match upd c resp with
      | None => c :: reached upd resp rest
      | Some _ => [c]
      end
  end.

(** The first failure of such a dispatch, if any. *)
Fixpoint first_failure {payload : Type} (upd : component -> payload -> option exn)
    (resp : payload) (cs : list component) : option exn :=
  match cs with
  | [] => None
  | c :: rest =>
      match upd c resp with
      | None => first_failure upd resp rest
      | Some e => Some e
      end
  end.

(** What [get_json] returns, as a function of the collaborators. *)
Definition fetch_result {response payload inverter_state : Type}
    (E : collaborators response payload inverter_state)
    (url : string) (timeout : Z) : result payload :=
  match session_get _ _ _ E url timeout with
  | Ok r => response_json _ _ _ E r
  | Raise e => Raise e
  end.

(** The URL [update] requests. *)
Definition currentstate_url (address : string) : string :=
  "http://" +++ address +++ "/api.php?get=currentstate".

(** A sequence of [add_component] calls on one device, the caller going on
    after a call that raises. *)
Definition add_components {response payload inverter_state : Type}
    (E : collaborators response payload inverter_state)
    (configs : list (config_input component_setup))
    (s : state payload inverter_state) : state payload inverter_state :=
  fold_left (fun s c => fst (add_component E c s)) configs s.

(** The events of an update cycle over the collection [d]: the slots
    acquired, the request, the [update] calls made, the slots released. *)
Definition cycle_events {payload inverter_state : Type} (d : pydict) (url : string)
    (calls : list (component * payload)) (outcome : option exn)
    : list (event payload inverter_state) :=
  map SlotAcquired (keys d)
  ++ [HttpGet url 5]
  ++ map (fun call => Update (fst call) (snd call)) calls
  ++ map (fun k => SlotReleased k outcome) (keys d).

(** The [update] calls of a cycle of [Device.update] and what ends it, read
    off the collaborators: nothing is called when the request fails; else
    the components are called in order up to the first call that raises. *)
Definition dispatch_calls {response payload inverter_state : Type}
    (E : collaborators response payload inverter_state)
    (d : pydict) (url : string) : list (component * payload) :=
  match fetch_result E url 5 with
  | Ok resp =>
      map (fun c => (c, resp)) (reached (component_update _ _ _ E) resp (values d))
  | Raise _ => []
  end.

Definition cycle_outcome {response payload inverter_state : Type}
    (E : collaborators response payload inverter_state)
    (d : pydict) (url : string) : option exn :=
  match fetch_result E url 5 with
  | Ok resp => first_failure (component_update _ _ _ E) resp (values d)
  | Raise e => Some e
  end.

(** Every entry of the collection sits under the key that the id of its
    component makes; the type of the component has no part in it. *)
Definition keyed_by_id (d : pydict) : Prop :=
  Forall (fun kv => fst kv = "component" +++ str_id (setup_id (comp_config (snd kv)))) d.

(** The ids of the components of a collection. *)
Definition ids (d : pydict) : list (option Z) :=
  map (fun kv => setup_id (comp_config (snd kv))) d.

(** No [update] call among the events is on an inverter. *)
Definition no_inverter_update {payload inverter_state : Type}
    (es : list (event payload inverter_state)) : Prop :=
  Forall (fun call => comp_class (fst call) <> BatterXInverter) (updates es).

(** The type tag [add_component] reads off its argument (lines 41-44). *)
Definition type_tag (component_config : config_input component_setup) : result pyval :=
  match component_config with
  | FromDict d => getitem d (PStr "type")
  | FromDataclass c => Ok (PStr (setup_type c))
  end.

(** Every component of the collection was built for the device [device_id]. *)
Definition bound_to (device_id : Z) (d : pydict) : Prop :=
  Forall (fun kv => comp_device_id (snd kv) = device_id) d.

(** ** A concrete installation, for running the model

    Documents are strings, an inverter publishes the power it is given. *)

Definition sample_setup (type_ : string) (id_ : option Z) : component_setup :=
  {| setup_name := type_;
     setup_type := type_;
     setup_id := id_;
     setup_configuration := [] |}.

Definition sample_BatterX : BatterX :=
  {| bx_name := "BatterX";
     bx_type := "batterx";
     bx_id := 0;
     bx_configuration := {| ip_address := "192.168.0.9" |} |}.

Definition sample_component (cls : component_class) (type_ : string) (id_ : Z) : component :=
  {| comp_class := cls;
     comp_device_id := 0;
     comp_config := sample_setup type_ (Some id_) |}.

(** Reads a setup out of a mapping: ["type"] and ["id"] are required. *)
Definition sample_parse (d : raw_dict) : result component_setup :=
  match getitem d (PStr "type"), getitem d (PStr "id") with
  | Ok (PStr t), Ok (PInt i) => Ok (sample_setup t (Some i))
  | Ok (PStr t), Ok PNone => Ok (sample_setup t None)
  | Raise e, _ => Raise e
  | _, Raise e => Raise e
  | _, _ => Raise (TypeError "malformed component configuration")
  end.

(** [broken] tells which component classes fail to update; [net] is what
    the request yields. *)
Definition sample (broken : component_class -> bool) (net : result string)
    : collaborators string string numeric :=
  {| dataclass_from_dict_BatterX := fun c =>
       match c with
       | FromDataclass b => Ok b
       | FromDict _ => Raise (TypeError "malformed device configuration")
       end;
     dataclass_from_dict_setup := fun _ c =>
       match c with
       | FromDataclass s => Ok s
       | FromDict d => sample_parse d
       end;
     BatterX_default := sample_BatterX;
     configuration_factory := fun m =>
       match m with
       | bat => sample_setup "bat" (Some 0)
       | counter => sample_setup "counter" (Some 0)
       | inverter => sample_setup "inverter" (Some 0)
       | external_inverter => sample_setup "external_inverter" (Some 0)
       end;
     component_init := fun _ _ _ => None;
     component_repr := fun c => "<" +++ setup_type (comp_config c) +++ ">";
     component_update := fun c _ =>
       if broken (comp_class c)
       then Some (Foreign (setup_type (comp_config c)) "update failed")
       else None;
     get_power := fun _ _ => Ok (NInt 100);
     inverter_state_of := fun _ p => Ok p;
     session_get := fun _ _ => net;
     response_json := fun r => Ok r |}.

Definition nothing_broken (_ : component_class) : bool := false.

(** The installation of [sample] with component classes whose constructor
    refuses every configuration. *)
Definition sample_refusing (net : result string) : collaborators string string numeric :=
  let E := sample nothing_broken net in
  {| dataclass_from_dict_BatterX := dataclass_from_dict_BatterX _ _ _ E;
     dataclass_from_dict_setup := dataclass_from_dict_setup _ _ _ E;
     BatterX_default := BatterX_default _ _ _ E;
     configuration_factory := configuration_factory _ _ _ E;
     component_init := fun _ _ c =>
       Some (Foreign (setup_type c) "configuration refused");
     component_repr := component_repr _ _ _ E;
     component_update := component_update _ _ _ E;
     get_power := get_power _ _ _ E;
     inverter_state_of := inverter_state_of _ _ _ E;
     session_get := session_get _ _ _ E;
     response_json := response_json _ _ _ E |}.

Definition bat_broken (cls : component_class) : bool :=
  component_class_eqb cls BatterXBat.

Definition counter_broken (cls : component_class) : bool :=
  component_class_eqb cls BatterXCounter.

Definition sample_bat : component := sample_component BatterXBat "bat" 1.
Definition sample_counter : component := sample_component BatterXCounter "counter" 2.
Definition sample_inverter : component := sample_component BatterXInverter "inverter" 3.

Definition sample_collection : pydict :=
  [ ("component1", sample_bat);
    ("component2", sample_counter);
    ("component3", sample_inverter) ].

Definition sample_timeout : exn := Foreign "requests" "read timed out".

Definition sample_url : string := "http://192.168.0.9/api.php?get=currentstate".

(** 5.0, 3.0 and 8.0 *)
Definition five : numeric := NFloat (S754_finite false 5629499534213120 (-50)).
Definition three : numeric := NFloat (S754_finite false 6755399441055744 (-51)).
Definition eight : numeric := NFloat (S754_finite false 4503599627370496 (-49)).

Definition start {payload inverter_state : Type} (d : Device)
    : state payload inverter_state :=
  {| self := d; trace := [] |}.

(** * Properties *)

(** ** Dictionaries *)

Section DictFacts.
Context {V : Type}.
Implicit Types (d : list (string * V)) (k : string) (v : V).

Lemma lookup_setitem_same d k v : lookup (setitem d k v) k = Some v.
Proof.
  induction d as [|[k' v'] d IH]; simpl.
  - now rewrite String.eqb_refl.
  - destruct (String.eqb k k') eqn:Hk; simpl; rewrite Hk; auto.
Qed.

Lemma lookup_setitem_other d k v k' :
  k' <> k -> lookup (setitem d k v) k' = lookup d k'.
Proof.
  intros Hne. induction d as [|[k0 v0] d IH]; simpl.
  - destruct (String.eqb_spec k' k); congruence.
  - destruct (String.eqb_spec k k0) as [->|Hk]; simpl.
    + destruct (String.eqb_spec k' k0); congruence.
    + now rewrite IH.
Qed.

Lemma lookup_None_notin d k : lookup d k = None <-> ~ In k (keys d).
Proof.
  induction d as [|[k' v'] d IH]; simpl.
  - tauto.
  - destruct (String.eqb_spec k k') as [->|Hk].
    + split; [discriminate | intros H; exfalso; apply H; now left].
    + rewrite IH. split; intros H; [intros [E|Hin]; [congruence | tauto] | tauto].
Qed.

(** Storing under a key already there replaces the value in place;
    storing under a new key appends one entry. *)
Lemma setitem_present d k v v0 :
  lookup d k = Some v0 ->
  keys (setitem d k v) = keys d /\ List.length (setitem d k v) = List.length d.
Proof.
  induction d as [|[k' v'] d IH]; simpl; [discriminate|].
  destruct (String.eqb_spec k k') as [->|Hk]; simpl; [auto|].
  intros H. destruct (IH H) as [-> ->]. auto.
Qed.

Lemma setitem_absent d k v :
  lookup d k = None -> setitem d k v = d ++ [(k, v)].
Proof.
  induction d as [|[k' v'] d IH]; simpl; [reflexivity|].
  destruct (String.eqb_spec k k') as [->|Hk]; [discriminate|].
  intros H. now rewrite IH.
Qed.

Lemma NoDup_keys_setitem d k v : NoDup (keys d) -> NoDup (keys (setitem d k v)).
Proof.
  intros Hd. destruct (lookup d k) as [v0|] eqn:Hl.
  - now destruct (setitem_present d k v v0 Hl) as [-> _].
  - rewrite (setitem_absent d k v Hl). unfold keys. rewrite map_app. simpl.
    apply lookup_None_notin in Hl.
    apply NoDup_app; [exact Hd | repeat constructor; simpl; tauto |].
    intros x Hx [<-|[]]. exact (Hl Hx).
Qed.

(** With distinct keys, the entry at a position is the one its key finds. *)
Lemma lookup_middle (pre rest : list (string * V)) k v :
  NoDup (keys (pre ++ (k, v) :: rest)) -> lookup (pre ++ (k, v) :: rest) k = Some v.
Proof.
  induction pre as [|[k' v'] pre IH]; simpl.
  - now rewrite String.eqb_refl.
  - intros H. inversion H as [|? ? Hnot Hnd]; subst.
    destruct (String.eqb_spec k k') as [->|Hk].
    + exfalso. apply Hnot. unfold keys. rewrite map_app. apply in_or_app.
      right. now left.
    + now apply IH.
Qed.

Lemma nth_error_middle (pre rest : list (string * V)) (x : string * V) :
  nth_error (pre ++ x :: rest) (List.length pre) = Some x.
Proof. induction pre; simpl; auto. Qed.
End DictFacts.

(** ** Keys of the component collection *)

Lemma str_int_inj z z' : str_int z = str_int z' -> z = z'.
Proof.
  unfold str_int. intros H.
  assert (Hn : forall x, Z.to_int x <> Decimal.Pos Decimal.Nil /\
                         Z.to_int x <> Decimal.Neg Decimal.Nil).
  { intros [|p|p]; simpl; split; try discriminate;
      intros [= Hp]; exact (DecimalPos.Unsigned.to_uint_nonnil p Hp). }
  apply DecimalZ.to_int_inj.
  assert (Hs : Some (Z.to_int z) = Some (Z.to_int z')).
  { rewrite <- (NilZero.isi (Z.to_int z)), <- (NilZero.isi (Z.to_int z')), H;
      try apply Hn. reflexivity. }
  now injection Hs.
Qed.

Lemma str_int_not_None z : str_int z <> "None".
Proof.
  unfold str_int. intros H.
  assert (Hs : NilZero.int_of_string (NilZero.string_of_int (Z.to_int z)) = None)
    by now rewrite H.
  rewrite NilZero.isi in Hs; [discriminate| |];
    destruct z; simpl; try discriminate;
    intros [= Hp]; exact (DecimalPos.Unsigned.to_uint_nonnil _ Hp).
Qed.

Lemma str_id_inj i j : str_id i = str_id j -> i = j.
Proof.
  destruct i as [z|], j as [z'|]; simpl; intros H.
  - f_equal. now apply str_int_inj.
  - now apply str_int_not_None in H.
  - symmetry in H. now apply str_int_not_None in H.
  - reflexivity.
Qed.

Lemma component_key_inj i j :
  "component" +++ str_id i = "component" +++ str_id j -> i = j.
Proof. simpl. intros [= H]. now apply str_id_inj. Qed.

(** ** Addition of readings *)

Lemma SFadd_comm x y : SFadd prec emax x y = SFadd prec emax y x.
Proof.
  destruct x as [sx|sx| |sx mx ex], y as [sy|sy| |sy my ey]; simpl;
    try reflexivity; try (destruct sx, sy; reflexivity).
  now rewrite Z.min_comm, Z.add_comm.
Qed.

Lemma py_add_comm a b : py_add a b = py_add b a.
Proof.
  destruct a as [x|x], b as [y|y]; simpl.
  - now rewrite Z.add_comm.
  - destruct (float_of_int x); [now rewrite SFadd_comm | reflexivity].
  - destruct (float_of_int y); [now rewrite SFadd_comm | reflexivity].
  - now rewrite SFadd_comm.
Qed.

(** ** Runs of the model *)

Section Properties.
Context {response payload inverter_state : Type}.
Variable E : collaborators response payload inverter_state.

Local Abbreviation st := (state payload inverter_state).
Local Abbreviation ev := (event payload inverter_state).
Local Abbreviation upd := (component_update _ _ _ E).

(** The body of the loop of [update]. *)
Local Abbreviation update_body resp :=
  (fun item : string * component =>
     bind getattr_components (fun d =>
     bind (lift (getitem d (PStr (fst item)))) (fun c =>
     call_update E c resp))).

Lemma fetches_app (a b : list ev) : fetches (a ++ b) = fetches a ++ fetches b.
Proof. induction a as [|[] a IH]; simpl; rewrite ?IH; reflexivity. Qed.

Lemma updates_app (a b : list ev) : updates (a ++ b) = updates a ++ updates b.
Proof. induction a as [|[] a IH]; simpl; rewrite ?IH; reflexivity. Qed.

Lemma released_app (a b : list ev) : released (a ++ b) = released a ++ released b.
Proof. induction a as [|[] a IH]; simpl; rewrite ?IH; reflexivity. Qed.

Lemma acquired_app (a b : list ev) : acquired (a ++ b) = acquired a ++ acquired b.
Proof. induction a as [|[] a IH]; simpl; rewrite ?IH; reflexivity. Qed.

Lemma published_app (a b : list ev) : published (a ++ b) = published a ++ published b.
Proof. induction a as [|[] a IH]; simpl; rewrite ?IH; reflexivity. Qed.

(** *** Steps of the monad *)

Lemma bind_ok {A B} (m : M payload inverter_state A)
    (k : A -> M payload inverter_state B) (s s' : st) (a : A) :
  m s = (s', Ok a) -> bind m k s = k a s'.
Proof. unfold bind. now intros ->. Qed.

Lemma bind_raise {A B} (m : M payload inverter_state A)
    (k : A -> M payload inverter_state B) (s s' : st) (e : exn) :
  m s = (s', Raise e) -> bind m k s = (s', Raise e).
Proof. unfold bind. now intros ->. Qed.

Lemma getattr_components_some (s : st) (d : pydict) :
  components (self s) = Some d -> getattr_components s = (s, Ok d).
Proof. unfold getattr_components. now intros ->. Qed.

Lemma getattr_device_config_some (s : st) (cfg : BatterX) :
  device_config (self s) = Some cfg -> getattr_device_config s = (s, Ok cfg).
Proof. unfold getattr_device_config. now intros ->. Qed.

Lemma call_update_run (c : component) (resp : payload) (s : st) :
  call_update E c resp s
  = ({| self := self s; trace := trace s ++ [Update c resp] |},
     match upd c resp with
     | None => Ok tt
     | Some e => Raise e
     end).
Proof. unfold call_update, bind, emit. simpl. now destruct (upd c resp). Qed.

(** *** Steps of a dict iteration *)

Lemma dict_iter_end (used pos : nat) body (s : st) (d : pydict) :
  components (self s) = Some d -> List.length d = used ->
  dict_iter used O pos body s = (s, Ok tt).
Proof.
  intros Hd Hl. simpl. rewrite (bind_ok _ _ _ _ _ (getattr_components_some s d Hd)).
  now rewrite Hl, Nat.eqb_refl.
Qed.

Lemma dict_iter_step (used remaining pos : nat) body (s : st) (d : pydict) item :
  components (self s) = Some d -> List.length d = used ->
  nth_error d pos = Some item ->
  dict_iter used (S remaining) pos body s
  = bind (body item) (fun _ => dict_iter used remaining (S pos) body) s.
Proof.
  intros Hd Hl Hn. simpl.
  rewrite (bind_ok _ _ _ _ _ (getattr_components_some s d Hd)).
  now rewrite Hl, Nat.eqb_refl, Hn.
Qed.

Lemma dict_iter_changed (used remaining pos : nat) body (s : st) (d : pydict) :
  components (self s) = Some d -> List.length d <> used ->
  dict_iter used remaining pos body s
  = (s, Raise (RuntimeError "dictionary changed size during iteration")).
Proof.
  intros Hd Hl. apply Nat.eqb_neq in Hl.
  destruct remaining; simpl;
    rewrite (bind_ok _ _ _ _ _ (getattr_components_some s d Hd)), Hl; reflexivity.
Qed.

Lemma update_body_run (resp : payload) (s : st) (d : pydict) (k : string) (c : component) :
  components (self s) = Some d -> lookup d k = Some c ->
  update_body resp (k, c) s = call_update E c resp s.
Proof.
  intros Hd Hl. cbv beta.
  rewrite (bind_ok _ _ _ _ _ (getattr_components_some s d Hd)).
  unfold bind, lift. simpl. now rewrite Hl.
Qed.

(** The loop of [update] calls [update] on the entries in order and ends
    at the first call that raises. *)
Lemma dict_iter_update (resp : payload) (dev : Device) (rest : pydict) :
  forall (pre : pydict) (t : list ev),
    components dev = Some (pre ++ rest) ->
    NoDup (keys (pre ++ rest)) ->
    dict_iter (List.length (pre ++ rest)) (List.length rest) (List.length pre)
      (update_body resp) {| self := dev; trace := t |}
    = ({| self := dev;
          trace := t ++ map (fun c => Update c resp) (reached upd resp (values rest)) |},
       match first_failure upd resp (values rest) with
       | None => Ok tt
       | Some e => Raise e
       end).
Proof.
  induction rest as [|[k c] rest IH]; intros pre t Hd Hnd.
  - rewrite (dict_iter_end _ _ _ _ (pre ++ [])); auto.
    simpl. now rewrite (app_nil_r t).
  - simpl List.length.
    rewrite (dict_iter_step _ _ _ _ _ (pre ++ (k, c) :: rest) (k, c));
      auto using nth_error_middle.
    unfold bind at 1.
    rewrite (update_body_run resp _ (pre ++ (k, c) :: rest) k c);
      auto using lookup_middle.
    rewrite call_update_run. simpl.
    destruct (upd c resp) as [e|] eqn:Hu; [reflexivity|].
    replace (pre ++ (k, c) :: rest) with ((pre ++ [(k, c)]) ++ rest) in *
      by now rewrite <- app_assoc.
    replace (S (List.length pre)) with (List.length (pre ++ [(k, c)]))
      by (rewrite length_app; simpl; apply Nat.add_1_r).
    rewrite IH; auto.
    now rewrite <- app_assoc.
Qed.

(** *** The update context and the request *)

Lemma with_MultiComponentUpdateContext_run (d : pydict)
    (body : M payload inverter_state unit) (s s1 : st) (r : result unit) :
  body {| self := self s; trace := trace s ++ map SlotAcquired (keys d) |} = (s1, r) ->
  with_ (MultiComponentUpdateContext d) body s
  = ({| self := self s1;
        trace := trace s1
                 ++ map (fun k => SlotReleased k
                                    match r with Ok _ => None | Raise e => Some e end)
                      (keys d) |},
     Ok tt).
Proof.
  intros Hb. unfold with_, MultiComponentUpdateContext, bind, emit_all, ret. simpl.
  rewrite Hb. now destruct r.
Qed.

Lemma get_json_run (url : string) (timeout : Z) (s : st) :
  get_json E url timeout s
  = ({| self := self s; trace := trace s ++ [HttpGet url timeout] |},
     fetch_result E url timeout).
Proof.
  unfold get_json, fetch_result, bind, emit, lift. simpl.
  now destruct (session_get _ _ _ E url timeout).
Qed.

(** *** A cycle of [Device.update] *)

Ltac read_attr :=
  erewrite bind_ok
    by (first [apply getattr_components_some | apply getattr_device_config_some];
        reflexivity).

Lemma update_run (d : pydict) (cfg : BatterX) (t : list ev) :
  d <> [] -> NoDup (keys d) ->
  let url := currentstate_url (ip_address (bx_configuration cfg)) in
  update E {| self := constructed d cfg; trace := t |}
  = ({| self := constructed d cfg;
        trace := t ++ LogDebug ("Start device reading " +++ str_dict (component_repr _ _ _ E) d)
                   :: cycle_events d url (dispatch_calls E d url) (cycle_outcome E d url) |},
     Ok tt).
Proof.
  intros Hne Hnd url. destruct d as [|x d']; [congruence|].
  set (d := x :: d') in *.
  unfold update.
  read_attr.
  unfold bind at 1, emit at 1. cbv iota beta.
  read_attr.
  change (match d with | [] => _ | _ :: _ => ?a end) with a.
  clearbody d.
  unfold dispatch_calls, cycle_outcome, cycle_events.
  destruct (fetch_result E url 5) as [resp|e] eqn:Hf.
  - erewrite with_MultiComponentUpdateContext_run.
    2:{ read_attr. unfold bind at 1. rewrite get_json_run.
        fold (currentstate_url (ip_address (bx_configuration cfg))). fold url.
        rewrite Hf. unfold for_in_dict. read_attr.
        apply (dict_iter_update resp (constructed d cfg) d [] _ eq_refl Hnd). }
    cbn [self trace]. rewrite map_map. cbn [fst snd].
    destruct (first_failure upd resp (values d));
      rewrite <- !app_assoc; reflexivity.
  - erewrite with_MultiComponentUpdateContext_run.
    2:{ read_attr. unfold bind at 1. rewrite get_json_run.
        fold (currentstate_url (ip_address (bx_configuration cfg))). fold url.
        rewrite Hf. reflexivity. }
    cbn [self trace]. rewrite <- !app_assoc. reflexivity.
Qed.

(** *** Reading the events of a cycle *)

Lemma fetches_cycle_events (d : pydict) (url : string)
    (calls : list (component * payload)) (outcome : option exn) :
  fetches (cycle_events (inverter_state := inverter_state) d url calls outcome)
  = [(url, 5)].
Proof.
  unfold cycle_events. rewrite !fetches_app. simpl.
  assert (Ha : forall l, fetches (map (@SlotAcquired payload inverter_state) l) = [])
    by (induction l; simpl; auto).
  assert (Hu : forall l : list (component * payload),
             fetches (map (fun call => @Update payload inverter_state
                                         (fst call) (snd call)) l) = [])
    by (induction l; simpl; auto).
  assert (Hr : forall l, fetches (map (fun k => @SlotReleased payload inverter_state
                                                  k outcome) l) = [])
    by (induction l; simpl; auto).
  now rewrite Ha, Hu, Hr.
Qed.

Lemma updates_cycle_events (d : pydict) (url : string)
    (calls : list (component * payload)) (outcome : option exn) :
  updates (cycle_events (inverter_state := inverter_state) d url calls outcome)
  = calls.
Proof.
  unfold cycle_events. rewrite !updates_app. simpl.
  assert (Ha : forall l, updates (map (@SlotAcquired payload inverter_state) l) = [])
    by (induction l; simpl; auto).
  assert (Hu : forall l : list (component * payload),
             updates (map (fun call => @Update payload inverter_state
                                         (fst call) (snd call)) l) = l)
    by (induction l as [|[] l IH]; simpl; rewrite ?IH; auto).
  assert (Hr : forall l, updates (map (fun k => @SlotReleased payload inverter_state
                                                  k outcome) l) = [])
    by (induction l; simpl; auto).
  rewrite Ha, Hu, Hr. simpl. apply app_nil_r.
Qed.

Lemma acquired_cycle_events (d : pydict) (url : string)
    (calls : list (component * payload)) (outcome : option exn) :
  acquired (cycle_events (payload := payload) (inverter_state := inverter_state)
              d url calls outcome)
  = keys d.
Proof.
  unfold cycle_events. rewrite !acquired_app. simpl.
  assert (Ha : forall l, acquired (map (@SlotAcquired payload inverter_state) l) = l)
    by (induction l as [|? l IH]; simpl; rewrite ?IH; auto).
  assert (Hu : forall l : list (component * payload),
             acquired (map (fun call => @Update payload inverter_state
                                          (fst call) (snd call)) l) = [])
    by (induction l; simpl; auto).
  assert (Hr : forall l, acquired (map (fun k => @SlotReleased payload inverter_state
                                                   k outcome) l) = [])
    by (induction l; simpl; auto).
  rewrite Ha, Hu, Hr. simpl. apply app_nil_r.
Qed.

Lemma released_cycle_events (d : pydict) (url : string)
    (calls : list (component * payload)) (outcome : option exn) :
  released (cycle_events (payload := payload) (inverter_state := inverter_state)
              d url calls outcome)
  = map (fun k => (k, outcome)) (keys d).
Proof.
  unfold cycle_events. rewrite !released_app. simpl.
  assert (Ha : forall l, released (map (@SlotAcquired payload inverter_state) l) = [])
    by (induction l; simpl; auto).
  assert (Hu : forall l : list (component * payload),
             released (map (fun call => @Update payload inverter_state
                                          (fst call) (snd call)) l) = [])
    by (induction l; simpl; auto).
  assert (Hr : forall l, released (map (fun k => @SlotReleased payload inverter_state
                                                   k outcome) l)
                         = map (fun k => (k, outcome)) l)
    by (induction l as [|? l IH]; simpl; rewrite ?IH; auto).
  now rewrite Ha, Hu, Hr.
Qed.

(** *** Where a dispatch ends *)

Lemma reached_all (resp : payload) (cs : list component) :
  (forall c, In c cs -> upd c resp = None) ->
  reached upd resp cs = cs /\ first_failure upd resp cs = None.
Proof.
  induction cs as [|c cs IH]; simpl; intros H; [auto|].
  rewrite (H c) by now left.
  destruct IH as [-> ->]; auto.
Qed.

Lemma reached_first_failure (resp : payload) (before after : list component)
    (c : component) (e : exn) :
  (forall b, In b before -> upd b resp = None) ->
  upd c resp = Some e ->
  reached upd resp (before ++ c :: after) = before ++ [c]
  /\ first_failure upd resp (before ++ c :: after) = Some e.
Proof.
  intros Hb Hc. induction before as [|b before IH]; simpl.
  - now rewrite Hc.
  - rewrite (Hb b) by now left.
    destruct IH as [-> ->]; [intros; apply Hb; now right | auto].
Qed.

(** ** The update cycle of [Device.update] *)

(** C5.  On a device whose collection is empty, [update] makes no request
    and calls no component: it acquires no slot, logs its start line and
    the warning that no components are configured yet, and returns
    normally, leaving the device as it was. *)
Theorem update_without_components (cfg : BatterX) (t : list ev) :
  exists es : list ev,
    update E {| self := constructed [] cfg; trace := t |}
    = ({| self := constructed [] cfg; trace := t ++ es |}, Ok tt)
    /\ es = [ LogDebug "Start device reading {}";
              LogWarning (bx_name cfg +++
                ": Es konnten keine Werte gelesen werden, da noch keine Komponenten konfiguriert wurden.") ]
    /\ warnings es
       = [ bx_name cfg +++
           ": Es konnten keine Werte gelesen werden, da noch keine Komponenten konfiguriert wurden." ]
    /\ fetches es = []
    /\ updates es = []
    /\ acquired es = [].
Proof.
  eexists. split; [|split; [reflexivity|]].
  - unfold update. read_attr. unfold bind at 1, emit at 1. cbv iota beta.
    read_attr. cbv iota. read_attr. unfold emit. cbn [self trace].
    rewrite <- app_assoc. reflexivity.
  - repeat split.
Qed.

(** C4.  When the request of a cycle raises (the transport or the
    decoding), no component is updated; the slots of all components,
    acquired before the request, are each released once with that
    failure; the device is unchanged and [update] returns normally. *)
Theorem update_fetch_failure (d : pydict) (cfg : BatterX) (t : list ev) (e : exn) :
  d <> [] -> NoDup (keys d) ->
  fetch_result E (currentstate_url (ip_address (bx_configuration cfg))) 5 = Raise e ->
  exists es : list ev,
    update E {| self := constructed d cfg; trace := t |}
    = ({| self := constructed d cfg; trace := t ++ es |}, Ok tt)
    /\ es = LogDebug ("Start device reading " +++ str_dict (component_repr _ _ _ E) d)
            :: map SlotAcquired (keys d)
            ++ [HttpGet (currentstate_url (ip_address (bx_configuration cfg))) 5]
            ++ map (fun k => SlotReleased k (Some e)) (keys d)
    /\ updates es = []
    /\ acquired es = keys d
    /\ released es = map (fun k => (k, Some e)) (keys d).
Proof.
  intros Hne Hnd Hf.
  pose proof (update_run d cfg t Hne Hnd) as Hrun. cbv zeta in Hrun.
  unfold dispatch_calls, cycle_outcome in Hrun. rewrite Hf in Hrun.
  eexists. split; [exact Hrun|].
  split; [reflexivity|].
  cbn [updates acquired released].
  now rewrite updates_cycle_events, acquired_cycle_events, released_cycle_events.
Qed.

(** C2 (as the code has it).  On a device whose collection is not empty
    and whose configured address is a str, one call of [update] makes
    exactly one request, a GET of
    [http://<address>/api.php?get=currentstate] with timeout 5.  When it
    succeeds, the decoded document is given to the components in the
    order of the collection, once each, up to and including the first
    one whose [update] raises: to every component when none raises.
    (The address is concatenated into the URL before the request is
    made, line 61; [ip_address] has the type the configuration declares,
    so that this step cannot fail here.) *)
Theorem update_one_fetch_then_dispatch (d : pydict) (cfg : BatterX) (t : list ev) :
  d <> [] -> NoDup (keys d) ->
  exists es : list ev,
    update E {| self := constructed d cfg; trace := t |}
    = ({| self := constructed d cfg; trace := t ++ es |}, Ok tt)
    /\ fetches es = [(currentstate_url (ip_address (bx_configuration cfg)), 5)]
    /\ forall resp : payload,
         fetch_result E (currentstate_url (ip_address (bx_configuration cfg))) 5
         = Ok resp ->
         updates es = map (fun c => (c, resp)) (reached upd resp (values d))
         /\ ((forall c, In c (values d) -> upd c resp = None) ->
             updates es = map (fun c => (c, resp)) (values d)).
Proof.
  intros Hne Hnd.
  pose proof (update_run d cfg t Hne Hnd) as Hrun. cbv zeta in Hrun.
  eexists. split; [exact Hrun|].
  cbn [fetches updates]. rewrite fetches_cycle_events, updates_cycle_events.
  split; [reflexivity|].
  intros resp Hf. unfold dispatch_calls. rewrite Hf.
  split; [reflexivity|].
  intros Hall. now destruct (reached_all resp (values d) Hall) as [-> _].
Qed.

(** C1 (as the code has it).  In a cycle whose request succeeds and in
    which the [update] of one component raises while those before it in
    the collection succeed, the components before it and the failing one
    are given the document, in order, and no component after it is
    called: the exception leaves the loop.  It reaches the exit of the
    update context, which releases every slot with that failure, and
    [update] returns normally. *)
Theorem update_ends_at_failing_component (d : pydict) (cfg : BatterX) (t : list ev)
    (resp : payload) (before after : list component) (c : component) (e : exn) :
  NoDup (keys d) ->
  fetch_result E (currentstate_url (ip_address (bx_configuration cfg))) 5 = Ok resp ->
  values d = before ++ c :: after ->
  (forall b, In b before -> upd b resp = None) ->
  upd c resp = Some e ->
  exists es : list ev,
    update E {| self := constructed d cfg; trace := t |}
    = ({| self := constructed d cfg; trace := t ++ es |}, Ok tt)
    /\ updates es = map (fun x => (x, resp)) (before ++ [c])
    /\ released es = map (fun k => (k, Some e)) (keys d).
Proof.
  intros Hnd Hf Hv Hb Hc.
  assert (Hne : d <> []) by (intros ->; now destruct before).
  pose proof (update_run d cfg t Hne Hnd) as Hrun. cbv zeta in Hrun.
  eexists. split; [exact Hrun|].
  cbn [updates released]. rewrite updates_cycle_events, released_cycle_events.
  unfold dispatch_calls, cycle_outcome. rewrite Hf, Hv.
  now destruct (reached_first_failure resp before after c e Hb Hc) as [-> ->].
Qed.

(** ** [Device.__init__] and [Device.add_component] *)

(** What a call of [add_component] does: it raises and leaves the state
    as it was, or it stores one component, built from the normalized
    configuration, under the key made of that configuration's id. *)
Lemma add_component_cases (component_config : config_input component_setup) (s : st) :
  (exists e, add_component E component_config s = (s, Raise e))
  \/ (exists (module : component_module) (cls : component_class)
             (setup : component_setup) (cfg : BatterX) (d : pydict),
        dataclass_from_dict_setup _ _ _ E module component_config = Ok setup
        /\ In cls (values COMPONENT_TYPE_TO_CLASS)
        /\ device_config (self s) = Some cfg
        /\ components (self s) = Some d
        /\ add_component E component_config s
           = ({| self := constructed
                           (setitem d ("component" +++ str_id (setup_id setup))
                              {| comp_class := cls;
                                 comp_device_id := bx_id cfg;
                                 comp_config := setup |})
                           cfg;
                 trace := trace s |},
              Ok tt)).
Proof.
  remember (add_component E component_config s) as run eqn:Hrun.
  unfold add_component in Hrun.
  unfold bind at 1, lift at 1 in Hrun.
  destruct (match component_config with
            | FromDict d => getitem d (PStr "type")
            | FromDataclass c => Ok (PStr (setup_type c))
            end) as [component_type|e]; [|left; rewrite Hrun; eauto].
  unfold bind at 1, lift at 1 in Hrun.
  destruct (getitem COMPONENT_TYPE_TO_MODULE component_type) as [module|e];
    [|left; rewrite Hrun; eauto].
  unfold bind at 1, lift at 1 in Hrun.
  destruct (dataclass_from_dict_setup _ _ _ E module component_config)
    as [setup|e] eqn:Hn; [|left; rewrite Hrun; eauto].
  destruct (contains COMPONENT_TYPE_TO_CLASS component_type) eqn:Hin.
  - unfold bind at 1, lift at 1 in Hrun.
    destruct (getitem COMPONENT_TYPE_TO_CLASS component_type) as [cls|e] eqn:Hcls;
      [|left; rewrite Hrun; eauto].
    unfold bind at 1, getattr_device_config at 1 in Hrun.
    destruct (device_config (self s)) as [cfg|] eqn:Hcfg;
      [|left; rewrite Hrun; eauto].
    unfold bind at 1, construct at 1 in Hrun.
    destruct (component_init _ _ _ E cls (bx_id cfg) setup) as [e|];
      [left; rewrite Hrun; unfold raise; eauto|].
    unfold ret at 1 in Hrun.
    unfold bind at 1, getattr_components at 1 in Hrun.
    destruct (components (self s)) as [d|] eqn:Hd;
      [|left; rewrite Hrun; eauto].
    right. exists module, cls, setup, cfg, d.
    repeat split; auto.
    + destruct component_type as [tag_| |]; simpl in Hcls; try discriminate.
      repeat match type of Hcls with
             | context [String.eqb ?a ?b] =>
                 destruct (String.eqb a b); [injection Hcls as <-; simpl; tauto|]
             end.
      discriminate.
    + rewrite Hrun. unfold setattr_components, constructed. now rewrite Hcfg.
  - unfold bind at 1, lift at 1 in Hrun.
    destruct (str_add "illegal component type " component_type);
      left; rewrite Hrun; unfold raise; eauto.
Qed.

(** What the constructor does with a new object, by the outcome of the
    normalization. *)
Lemma init_run (device_config_ : config_input BatterX) (t : list ev) :
  __init__ E device_config_ {| self := Device_new; trace := t |}
  = match dataclass_from_dict_BatterX _ _ _ E device_config_ with
    | Ok cfg => ({| self := constructed [] cfg; trace := t |}, Ok tt)
    | Raise _ =>
        ({| self := {| components := Some []; device_config := None |}; trace := t |},
         Raise (AttributeError "'Device' object has no attribute 'device_config'"))
    end.
Proof.
  unfold __init__, bind, setattr_components, try_except, lift. simpl.
  destruct (dataclass_from_dict_BatterX _ _ _ E device_config_); reflexivity.
Qed.

(** C10.  The constructor never returns normally without a normalized
    configuration.  When [dataclass_from_dict] returns, the new device has
    that value as its [device_config] and an empty collection.  When it
    raises, the handler reads [self.device_config], which was never
    assigned, so the constructor raises [AttributeError] and logs
    nothing. *)
Theorem init_sets_config_or_raises (device_config_ : config_input BatterX) (t : list ev) :
  match dataclass_from_dict_BatterX _ _ _ E device_config_ with
  | Ok cfg =>
      __init__ E device_config_ {| self := Device_new; trace := t |}
      = ({| self := constructed [] cfg; trace := t |}, Ok tt)
  | Raise _ =>
      __init__ E device_config_ {| self := Device_new; trace := t |}
      = ({| self := {| components := Some []; device_config := None |}; trace := t |},
         Raise (AttributeError "'Device' object has no attribute 'device_config'"))
  end.
Proof.
  unfold __init__.
  unfold bind at 1, setattr_components at 1. cbn [self trace components device_config Device_new].
  unfold try_except, bind, lift.
  destruct (dataclass_from_dict_BatterX _ _ _ E device_config_) as [cfg|e].
  - reflexivity.
  - unfold getattr_device_config. reflexivity.
Qed.

(** C9.  [add_component] is atomic.  A call that raises leaves the device
    and everything else as they were.  A call that returns has stored
    exactly one entry: the component built from the normalized
    configuration, under the key ["component" + str(id)] of that
    configuration; it replaces the entry that key had, if any, and
    leaves every other key as it was. *)
Theorem add_component_atomic (component_config : config_input component_setup)
    (s s' : st) (r : result unit) :
  add_component E component_config s = (s', r) ->
  match r with
  | Raise _ => s' = s
  | Ok _ =>
      exists (module : component_module) (setup : component_setup)
             (c : component) (d : pydict),
        dataclass_from_dict_setup _ _ _ E module component_config = Ok setup
        /\ comp_config c = setup
        /\ components (self s) = Some d
        /\ components (self s')
           = Some (setitem d ("component" +++ str_id (setup_id setup)) c)
        /\ lookup (setitem d ("component" +++ str_id (setup_id setup)) c)
             ("component" +++ str_id (setup_id setup)) = Some c
        /\ (forall k, k <> "component" +++ str_id (setup_id setup) ->
              lookup (setitem d ("component" +++ str_id (setup_id setup)) c) k
              = lookup d k)
        /\ device_config (self s') = device_config (self s)
        /\ trace s' = trace s
  end.
Proof.
  intros Hrun.
  destruct (add_component_cases component_config s)
    as [[e He]|(module & cls & setup & cfg & d & Hn & _ & Hcfg & Hd & He)];
    rewrite He in Hrun; injection Hrun as <- <-.
  - reflexivity.
  - exists module, setup,
      {| comp_class := cls; comp_device_id := bx_id cfg; comp_config := setup |}, d.
    split; [exact Hn|]. split; [reflexivity|]. split; [exact Hd|].
    split; [reflexivity|]. split; [apply lookup_setitem_same|].
    split; [intros k Hk; now apply lookup_setitem_other|].
    split; [now rewrite Hcfg | reflexivity].
Qed.

(** C3 (the code at the failing input).  For the type tag ["foo"], which
    neither table has, [add_component] leaves the device as it was and
    raises the [KeyError] of the lookup in [COMPONENT_TYPE_TO_MODULE],
    whose only argument is the tag: the [raise] that lists the allowed
    values is not reached. *)
Theorem add_component_unknown_type_KeyError (id_ : pyval) (s : st) :
  add_component E (FromDict [("type", PStr "foo"); ("id", id_)]) s
  = (s, Raise (KeyError (PStr "foo"))).
Proof. reflexivity. Qed.

(** ** The keys of the collection *)

(** The run of [add_component], step by step. *)
Lemma add_component_run (component_config : config_input component_setup) (s : st) :
  add_component E component_config s
  = match type_tag component_config with
    | Raise e => (s, Raise e)
    | Ok tag =>
        match getitem COMPONENT_TYPE_TO_MODULE tag with
        | Raise e => (s, Raise e)
        | Ok module =>
            match dataclass_from_dict_setup _ _ _ E module component_config with
            | Raise e => (s, Raise e)
            | Ok setup =>
                if contains COMPONENT_TYPE_TO_CLASS tag then
                  match getitem COMPONENT_TYPE_TO_CLASS tag with
                  | Raise e => (s, Raise e)
                  | Ok cls =>
                      match device_config (self s) with
                      | None =>
                          (s, Raise (AttributeError
                                       "'Device' object has no attribute 'device_config'"))
                      | Some cfg =>
                          match component_init _ _ _ E cls (bx_id cfg) setup with
                          | Some e => (s, Raise e)
                          | None =>
                              match components (self s) with
                              | None =>
                                  (s, Raise (AttributeError
                                               "'Device' object has no attribute 'components'"))
                              | Some d =>
                                  ({| self :=
                                        {| components :=
                                             Some (setitem d
                                                     ("component" +++ str_id (setup_id setup))
                                                     {| comp_class := cls;
                                                        comp_device_id := bx_id cfg;
                                                        comp_config := setup |});
                                           device_config := Some cfg |};
                                      trace := trace s |}, Ok tt)
                              end
                          end
                      end
                  end
                else
                  match str_add "illegal component type " tag with
                  | Raise e => (s, Raise e)
                  | Ok msg =>
                      (s, Raise (Exception_ (msg +++ ". Allowed values: "
                                                 +++ join "," (keys COMPONENT_TYPE_TO_CLASS))))
                  end
            end
        end
    end.
Proof.
  unfold add_component, type_tag.
  unfold bind at 1, lift at 1.
  destruct (match component_config with
            | FromDict d => getitem d (PStr "type")
            | FromDataclass c => Ok (PStr (setup_type c))
            end) as [tag|e]; [|reflexivity].
  unfold bind at 1, lift at 1.
  destruct (getitem COMPONENT_TYPE_TO_MODULE tag) as [module|e]; [|reflexivity].
  unfold bind at 1, lift at 1.
  destruct (dataclass_from_dict_setup _ _ _ E module component_config) as [setup|e];
    [|reflexivity].
  destruct (contains COMPONENT_TYPE_TO_CLASS tag).
  - unfold bind at 1, lift at 1.
    destruct (getitem COMPONENT_TYPE_TO_CLASS tag) as [cls|e]; [|reflexivity].
    unfold bind at 1, getattr_device_config at 1.
    destruct (device_config (self s)) as [cfg|] eqn:Hcfg; [|reflexivity].
    unfold bind at 1, construct at 1.
    destruct (component_init _ _ _ E cls (bx_id cfg) setup) as [e|]; [reflexivity|].
    unfold ret at 1. unfold bind at 1, getattr_components at 1.
    destruct (components (self s)) as [d|]; [|reflexivity].
    unfold setattr_components. now rewrite Hcfg.
  - unfold bind at 1, lift at 1.
    destruct (str_add "illegal component type " tag); reflexivity.
Qed.

(** What a call of [add_component] that returns has gone through, and
    the state it leaves. *)
Lemma add_component_ok_inv (component_config : config_input component_setup) (s s' : st) :
  add_component E component_config s = (s', Ok tt) ->
  exists (tag : string) (module : component_module) (cls : component_class)
         (setup : component_setup) (cfg : BatterX) (d : pydict),
    type_tag component_config = Ok (PStr tag)
    /\ lookup COMPONENT_TYPE_TO_MODULE tag = Some module
    /\ lookup COMPONENT_TYPE_TO_CLASS tag = Some cls
    /\ dataclass_from_dict_setup _ _ _ E module component_config = Ok setup
    /\ device_config (self s) = Some cfg
    /\ components (self s) = Some d
    /\ s' = {| self := constructed
                         (setitem d ("component" +++ str_id (setup_id setup))
                            {| comp_class := cls;
                               comp_device_id := bx_id cfg;
                               comp_config := setup |})
                         cfg;
               trace := trace s |}.
Proof.
  rewrite add_component_run.
  destruct (type_tag component_config) as [[tag| |]|e] eqn:Ht;
    cbn [getitem contains]; try discriminate.
  destruct (lookup COMPONENT_TYPE_TO_MODULE tag) as [module|] eqn:Hm; [|discriminate].
  destruct (dataclass_from_dict_setup _ _ _ E module component_config)
    as [setup|e] eqn:Hn; [|discriminate].
  destruct (lookup COMPONENT_TYPE_TO_CLASS tag) as [cls|] eqn:Hc; [|discriminate].
  destruct (device_config (self s)) as [cfg|] eqn:Hcfg; [|discriminate].
  destruct (component_init _ _ _ E cls (bx_id cfg) setup) as [e|] eqn:Hi; [discriminate|].
  destruct (components (self s)) as [d|] eqn:Hd; [|discriminate].
  intros [= <-]. exists tag, module, cls, setup, cfg, d. repeat split; auto.
Qed.

Lemma setitem_keyed (d : pydict) (c : component) :
  keyed_by_id d ->
  keyed_by_id (setitem d ("component" +++ str_id (setup_id (comp_config c))) c).
Proof.
  unfold keyed_by_id. induction d as [|[k' c'] d IH]; intros H.
  - repeat constructor.
  - inversion H as [|? ? Hk Hd]; subst.
    cbn [setitem].
    destruct (String.eqb_spec ("component" +++ str_id (setup_id (comp_config c))) k')
      as [Heq|Hne].
    + constructor; [now rewrite <- Heq | exact Hd].
    + constructor; [exact Hk | now apply IH].
Qed.

Lemma keyed_ids_NoDup (d : pydict) :
  keyed_by_id d -> NoDup (keys d) -> NoDup (ids d).
Proof.
  unfold keyed_by_id, keys, ids. intros Hk Hnd.
  apply (NoDup_map_inv (fun i => "component" +++ str_id i)).
  rewrite map_map.
  erewrite map_ext_in; [exact Hnd|].
  intros kv Hin. rewrite Forall_forall in Hk. symmetry. now apply Hk.
Qed.

Lemma keys_setitem (d : pydict) (k : string) (c : component) :
  keys (setitem d k c)
  = match lookup d k with
    | Some _ => keys d
    | None => keys d ++ [k]
    end.
Proof.
  destruct (lookup d k) as [c0|] eqn:Hl.
  - now destruct (setitem_present d k c c0 Hl).
  - rewrite (setitem_absent d k c Hl). unfold keys. now rewrite map_app.
Qed.

(** In a collection keyed by id, an id is absent exactly when its key is. *)
Lemma keyed_lookup_None (d : pydict) (i : option Z) :
  keyed_by_id d ->
  (lookup d ("component" +++ str_id i) = None <-> ~ In i (ids d)).
Proof.
  intros Hk. rewrite lookup_None_notin.
  unfold keyed_by_id, keys, ids in *. rewrite Forall_forall in Hk.
  split; intros H Hin; apply H.
  - apply in_map_iff in Hin. destruct Hin as (kv & <- & Hkv).
    apply in_map_iff. exists kv. split; [now apply Hk | exact Hkv].
  - apply in_map_iff in Hin. destruct Hin as (kv & Heq & Hkv).
    apply in_map_iff. exists kv. split; [|exact Hkv].
    rewrite (Hk kv Hkv) in Heq. now apply component_key_inj in Heq.
Qed.

(** Through any sequence of [add_component] calls, a device with its
    attributes keeps its configuration and the events, and its collection
    keeps distinct keys, each made of its component's id. *)
Lemma add_components_shape (cfg : BatterX) (t : list ev)
    (configs : list (config_input component_setup)) :
  forall d0 : pydict,
    NoDup (keys d0) -> keyed_by_id d0 ->
    exists d : pydict,
      add_components E configs {| self := constructed d0 cfg; trace := t |}
      = {| self := constructed d cfg; trace := t |}
      /\ NoDup (keys d) /\ keyed_by_id d.
Proof.
  induction configs as [|c configs IH]; intros d0 Hnd Hk.
  - exists d0. auto.
  - cbn [add_components fold_left].
    destruct (add_component_cases c {| self := constructed d0 cfg; trace := t |})
      as [[e He]|(module & cls & setup & cfg' & d' & _ & _ & Hcfg & Hd & He)];
      rewrite He; cbn [fst].
    + now apply IH.
    + cbn [self constructed device_config components trace] in Hcfg, Hd |- *.
      injection Hcfg as <-. injection Hd as <-.
      apply IH; [now apply NoDup_keys_setitem|].
      apply (setitem_keyed d0 {| comp_class := cls; comp_device_id := bx_id cfg;
                                 comp_config := setup |} Hk).
Qed.

(** C6 (as the code has it).  After any sequence of [add_component] calls
    on a new device, the keys of the collection are distinct and each is
    ["component" + str(id)] of the component it holds: the type has no
    part in the key, so the collection holds at most one component per
    id.  A further call that returns has stored the component it built
    from its own configuration (an instance of the class of the type tag,
    made for the id of the device from the normalized configuration)
    under the key of the id of that configuration, and has changed nothing
    else: every other key holds what it held.  The component takes the
    place of the entry with that id, whatever the type of either, the keys
    staying as they were; it is appended as a new last entry only when no
    entry has that id.  A further call that raises leaves the device as it
    was. *)
Theorem collection_keyed_by_id (cfg : BatterX)
    (configs : list (config_input component_setup)) (t : list ev)
    (component_config : config_input component_setup) :
  exists d : pydict,
    add_components E configs {| self := constructed [] cfg; trace := t |}
    = {| self := constructed d cfg; trace := t |}
    /\ NoDup (keys d)
    /\ keyed_by_id d
    /\ NoDup (ids d)
    /\ match add_component E component_config
               (add_components E configs {| self := constructed [] cfg; trace := t |})
       with
       | (s', Ok _) =>
           exists (tag : string) (module : component_module) (cls : component_class)
                  (setup : component_setup),
             type_tag component_config = Ok (PStr tag)
             /\ lookup COMPONENT_TYPE_TO_MODULE tag = Some module
             /\ lookup COMPONENT_TYPE_TO_CLASS tag = Some cls
             /\ dataclass_from_dict_setup _ _ _ E module component_config = Ok setup
             /\ s' = {| self := constructed
                                  (setitem d ("component" +++ str_id (setup_id setup))
                                     {| comp_class := cls;
                                        comp_device_id := bx_id cfg;
                                        comp_config := setup |})
                                  cfg;
                        trace := t |}
             /\ lookup (setitem d ("component" +++ str_id (setup_id setup))
                          {| comp_class := cls;
                             comp_device_id := bx_id cfg;
                             comp_config := setup |})
                  ("component" +++ str_id (setup_id setup))
                = Some {| comp_class := cls;
                          comp_device_id := bx_id cfg;
                          comp_config := setup |}
             /\ (forall k : string,
                   k <> "component" +++ str_id (setup_id setup) ->
                   lookup (setitem d ("component" +++ str_id (setup_id setup))
                             {| comp_class := cls;
                                comp_device_id := bx_id cfg;
                                comp_config := setup |}) k
                   = lookup d k)
             /\ match lookup d ("component" +++ str_id (setup_id setup)) with
                | Some _ =>
                    In (setup_id setup) (ids d)
                    /\ keys (setitem d ("component" +++ str_id (setup_id setup))
                               {| comp_class := cls;
                                  comp_device_id := bx_id cfg;
                                  comp_config := setup |})
                       = keys d
                | None =>
                    ~ In (setup_id setup) (ids d)
                    /\ setitem d ("component" +++ str_id (setup_id setup))
                         {| comp_class := cls;
                            comp_device_id := bx_id cfg;
                            comp_config := setup |}
                       = d ++ [("component" +++ str_id (setup_id setup),
                                {| comp_class := cls;
                                   comp_device_id := bx_id cfg;
                                   comp_config := setup |})]
                end
       | (s', Raise _) =>
           s' = add_components E configs {| self := constructed [] cfg; trace := t |}
       end.
Proof.
  destruct (add_components_shape cfg t configs [])
    as (d & Hs & Hnd & Hk); [constructor | constructor |].
  exists d. rewrite Hs. split; [reflexivity|].
  split; [exact Hnd|]. split; [exact Hk|].
  split; [now apply keyed_ids_NoDup|].
  destruct (add_component E component_config {| self := constructed d cfg; trace := t |})
    as [s' [[]|e]] eqn:Hrun.
  - apply add_component_ok_inv in Hrun.
    destruct Hrun as (tag & module & cls & setup & cfg' & d' & Ht & Hm & Hc & Hn
                      & Hcfg & Hd & ->).
    cbn [self constructed device_config components trace] in Hcfg, Hd |- *.
    injection Hcfg as <-. injection Hd as <-.
    exists tag, module, cls, setup.
    do 5 (split; [reflexivity || assumption|]).
    split; [apply lookup_setitem_same|].
    split; [intros k Hne; now apply lookup_setitem_other|].
    destruct (lookup d ("component" +++ str_id (setup_id setup))) as [c0|] eqn:Hl.
    + split.
      * assert (Hdec : forall a b : option Z, {a = b} + {a <> b})
          by (decide equality; apply Z.eq_dec).
        destruct (in_dec Hdec (setup_id setup) (ids d)) as [Hin|Hout]; [exact Hin|].
        apply (keyed_lookup_None d _ Hk) in Hout. congruence.
      * now destruct (setitem_present d _ {| comp_class := cls;
                                             comp_device_id := bx_id cfg;
                                             comp_config := setup |} c0 Hl).
    + split; [now apply (keyed_lookup_None d _ Hk) | now apply setitem_absent].
  - destruct (add_component_cases component_config
                {| self := constructed d cfg; trace := t |})
      as [[e' He]|(module & cls & setup & cfg' & d' & _ & _ & _ & _ & He)];
      rewrite He in Hrun; [|discriminate].
    now injection Hrun as <- _.
Qed.

(** ** The combining step *)

(** C8.  The combining step is a function of the two readings that depends
    on them through their sum alone: readings with the same sum give the
    same result (so do, in particular, the same readings), and the result
    is the same with the two readings exchanged. *)
Theorem combine_by_sum (c : component) (a b a' b' : numeric) :
  py_add a b = py_add a' b' ->
  combine E c a b = combine E c a' b' /\ combine E c a b = combine E c b a.
Proof.
  intros Hsum. unfold combine. split.
  - now rewrite Hsum.
  - now rewrite (py_add_comm a b).
Qed.

(** ** The legacy entry point *)

(** A call of [add_component] logs nothing and takes no attribute away. *)
Lemma add_component_quiet (component_config : config_input component_setup)
    (s s' : st) (r : result unit) :
  add_component E component_config s = (s', r) ->
  trace s' = trace s
  /\ (components (self s) <> None -> components (self s') <> None).
Proof.
  intros Hrun.
  destruct (add_component_cases component_config s)
    as [[e He]|(module & cls & setup & cfg & d & _ & _ & _ & _ & He)];
    rewrite He in Hrun; injection Hrun as <- <-.
  - auto.
  - split; [reflexivity | discriminate].
Qed.

Lemma _add_component_quiet (component_type : string) (num : option Z)
    (s s' : st) (r : result unit) :
  _add_component E component_type num s = (s', r) ->
  trace s' = trace s
  /\ (components (self s) <> None -> components (self s') <> None).
Proof.
  unfold _add_component.
  destruct (contains COMPONENT_TYPE_TO_MODULE (PStr component_type)).
  - unfold bind at 1, lift at 1.
    destruct (getitem COMPONENT_TYPE_TO_MODULE (PStr component_type)) as [module|e].
    + apply add_component_quiet.
    + intros [= <- <-]. auto.
  - intros [= <- <-]. auto.
Qed.

(** The type tag ["external_inverter"] is in [COMPONENT_TYPE_TO_MODULE] and
    not in [COMPONENT_TYPE_TO_CLASS]: [add_component] raises for a setup
    that carries it, and stores nothing. *)
Lemma add_component_external_inverter_raises (setup : component_setup) (s : st) :
  setup_type setup = "external_inverter" ->
  exists e, add_component E (FromDataclass setup) s = (s, Raise e).
Proof.
  intros Ht. unfold add_component. rewrite Ht.
  unfold bind at 1, lift at 1. unfold bind at 1, lift at 1. cbn [getitem lookup].
  cbn [COMPONENT_TYPE_TO_MODULE lookup String.eqb Ascii.eqb Bool.eqb].
  unfold bind at 1, lift at 1.
  destruct (dataclass_from_dict_setup _ _ _ E external_inverter (FromDataclass setup));
    eexists; reflexivity.
Qed.

(** When the set-up part of [read_legacy] returns, the device has its
    collection and only the two debug lines were logged. *)
Lemma read_legacy_setup_ok (component_type ip : string) (num : option Z)
    (evu_counter bat_module : option string) (ext_inverter : Z) (s s1 : st) :
  read_legacy_setup E component_type ip num evu_counter bat_module ext_inverter s
  = (s1, Ok tt) ->
  components (self s1) <> None
  /\ trace s1 = trace s ++ [ LogDebug ("BatterX IP-Adresse: " +++ ip);
                             LogDebug ("BatterX externer WR: " +++ str_int ext_inverter) ].
Proof.
  unfold read_legacy_setup.
  unfold bind at 1.
  rewrite init_run.
  destruct (dataclass_from_dict_BatterX _ _ _ E
              (FromDataclass (with_ip_address (BatterX_default _ _ _ E) ip)));
    [|discriminate].
  unfold bind at 1.
  destruct (_add_component E component_type num _) as [sa [[]|e]] eqn:Ha; [|discriminate].
  apply _add_component_quiet in Ha. cbn [self trace constructed components] in Ha.
  destruct Ha as [Hta Hca]. specialize (Hca ltac:(discriminate)).
  unfold bind at 1.
  destruct ((if option_string_eqb evu_counter "bezug_batterx"
             then _add_component E "counter" (Some 0) else ret tt) sa)
    as [sb [[]|e]] eqn:Hb; [|discriminate].
  assert (Htb : trace sb = trace sa /\ components (self sb) <> None).
  { destruct (option_string_eqb evu_counter "bezug_batterx").
    - apply _add_component_quiet in Hb. destruct Hb; auto.
    - injection Hb as <-. auto. }
  destruct Htb as [Htb Hcb].
  unfold bind at 1.
  destruct ((if option_string_eqb bat_module "speicher_batterx"
             then _add_component E "bat" (Some 3) else ret tt) sb)
    as [sc [[]|e]] eqn:Hc; [|discriminate].
  assert (Htc : trace sc = trace sb /\ components (self sc) <> None).
  { destruct (option_string_eqb bat_module "speicher_batterx").
    - apply _add_component_quiet in Hc. destruct Hc; auto.
    - injection Hc as <-. auto. }
  destruct Htc as [Htc Hcc].
  unfold bind, emit. cbn [self trace].
  intros [= <-]. cbn [self trace]. split; [exact Hcc|].
  rewrite Htc, Htb, Hta. now rewrite <- app_assoc.
Qed.

(** What one turn of the loop of [read_legacy] adds to the events when the
    external inverter flag is set: no request, and no [update] of an
    inverter. *)
Lemma read_legacy_dispatch_events (num : option Z) (ext_inverter : Z) (resp : payload)
    (item : string * component) (s s' : st) (r : result unit) :
  ext_inverter <> 0 ->
  read_legacy_dispatch E num ext_inverter resp item s = (s', r) ->
  exists es : list ev,
    trace s' = trace s ++ es /\ fetches es = [] /\ no_inverter_update es.
Proof.
  intros Hext. unfold read_legacy_dispatch.
  destruct (isinstance (snd item) [BatterXBat; BatterXCounter]) eqn:Hbc.
  - rewrite call_update_run. intros [= <- _]. cbn [trace].
    exists [Update (snd item) resp]. repeat split.
    constructor; [|constructor]. cbn [fst].
    unfold isinstance in Hbc. simpl in Hbc.
    destruct (comp_class (snd item)); simpl in Hbc; discriminate.
  - destruct (isinstance (snd item) [BatterXInverter]).
    + apply Z.eqb_neq in Hext. rewrite Hext.
      unfold bind at 1.
      destruct (_add_component E "external_inverter" (Some 4) s) as [sa [[]|e]] eqn:Ha;
        apply _add_component_quiet in Ha; destruct Ha as [Hta _].
      2:{ intros [= <- _]. exists []. rewrite app_nil_r. repeat split; auto. constructor. }
      unfold bind at 1, lift at 1.
      destruct (get_power _ _ _ E (snd item) resp) as [power|e].
      2:{ intros [= <- _]. exists []. rewrite app_nil_r. repeat split; auto. constructor. }
      unfold bind at 1, getattr_components at 1.
      destruct (components (self sa)) as [d|].
      2:{ intros [= <- _]. exists []. rewrite app_nil_r. repeat split; auto. constructor. }
      unfold bind at 1, lift at 1.
      destruct (getitem d (PStr "component4")) as [c4|e].
      2:{ intros [= <- _]. exists []. rewrite app_nil_r. repeat split; auto. constructor. }
      unfold bind at 1, lift at 1.
      destruct (get_power _ _ _ E c4 resp) as [power_ext|e].
      2:{ intros [= <- _]. exists []. rewrite app_nil_r. repeat split; auto. constructor. }
      unfold bind at 1, lift at 1.
      destruct (combine E (snd item) power power_ext) as [state_|e].
      2:{ intros [= <- _]. exists []. rewrite app_nil_r. repeat split; auto. constructor. }
      unfold emit. intros [= <- _]. cbn [trace]. rewrite Hta.
      exists [StoreSet num state_]. repeat split. constructor.
    + intros [= <- _]. exists []. rewrite app_nil_r. repeat split. constructor.
Qed.

(** The events of a dict iteration are those of its turns. *)
Lemma dict_iter_events (P : list ev -> Prop) (body : string * component -> M payload inverter_state unit) :
  P [] ->
  (forall a b, P a -> P b -> P (a ++ b)) ->
  (forall item s s' r, body item s = (s', r) ->
     exists es, trace s' = trace s ++ es /\ P es) ->
  forall (remaining used pos : nat) (s s' : st) (r : result unit),
    dict_iter used remaining pos body s = (s', r) ->
    exists es, trace s' = trace s ++ es /\ P es.
Proof.
  intros Hnil Happ Hbody.
  assert (Hstop : forall s : st, exists es, trace s = trace s ++ es /\ P es)
    by (intros s; exists []; now rewrite app_nil_r).
  induction remaining as [|remaining IH]; intros used pos s s' r; cbn [dict_iter];
    unfold bind at 1, getattr_components at 1;
    destruct (components (self s)) as [d|]; try (intros [= <- _]; apply Hstop);
    destruct (negb (Nat.eqb (List.length d) used)); try (intros [= <- _]; apply Hstop).
  destruct (nth_error d pos) as [item|]; [|intros [= <- _]; apply Hstop].
  unfold bind at 1.
  destruct (body item s) as [s2 [[]|e]] eqn:Hb;
    destruct (Hbody _ _ _ _ Hb) as (es1 & Ht1 & HP1).
  - intros Hrest. destruct (IH _ _ _ _ _ Hrest) as (es2 & Ht2 & HP2).
    exists (es1 ++ es2). split; [|now apply Happ].
    now rewrite Ht2, Ht1, app_assoc.
  - intros [= <- _]. eauto.
Qed.

(** C7 (as the code has it).  When [read_legacy] is called for an inverter
    with the external inverter flag set and its set-up part returns, the
    run makes exactly one request, the GET inside the update context, and
    calls [update] on no inverter. *)
Theorem read_legacy_ext_inverter_one_fetch (ip : string) (num : option Z)
    (evu_counter bat_module : option string) (ext_inverter : Z)
    (s s1 s2 : st) (r : result unit) :
  ext_inverter <> 0 ->
  read_legacy_setup E "inverter" ip num evu_counter bat_module ext_inverter s
  = (s1, Ok tt) ->
  read_legacy E "inverter" ip num evu_counter bat_module ext_inverter s = (s2, r) ->
  exists es : list ev,
    trace s2 = trace s ++ es
    /\ fetches es = [(currentstate_url ip, 5)]
    /\ no_inverter_update es.
Proof.
  intros Hext Hsetup. unfold read_legacy.
  rewrite (bind_ok _ _ _ _ _ Hsetup).
  destruct (read_legacy_setup_ok _ _ _ _ _ _ _ _ Hsetup) as [Hc Ht1].
  destruct (components (self s1)) as [d|] eqn:Hd; [clear Hc|congruence].
  rewrite (bind_ok _ _ _ _ _ (getattr_components_some s1 d Hd)).
  set (body := bind _ _).
  destruct (body {| self := self s1; trace := trace s1 ++ map SlotAcquired (keys d) |})
    as [sb rb] eqn:Hbody.
  rewrite (with_MultiComponentUpdateContext_run d body s1 sb rb Hbody).
  intros [= <- _]. cbn [trace].
  assert (Hb : exists es, trace sb = (trace s1 ++ map SlotAcquired (keys d))
                                     ++ HttpGet (currentstate_url ip) 5 :: es
                          /\ fetches es = [] /\ no_inverter_update es).
  { subst body. unfold bind at 1 in Hbody. rewrite get_json_run in Hbody.
    fold (currentstate_url ip) in Hbody. cbn [self trace] in Hbody.
    destruct (fetch_result E (currentstate_url ip) 5) as [resp|e].
    - unfold for_in_dict, bind at 1, getattr_components at 1 in Hbody.
      cbn [self] in Hbody. rewrite Hd in Hbody.
      apply (dict_iter_events (fun es => fetches es = [] /\ no_inverter_update es))
        in Hbody.
      + destruct Hbody as (es & Ht & HP). cbn [trace] in Ht.
        exists es. split; [|exact HP]. now rewrite Ht, <- app_assoc.
      + split; constructor.
      + intros a b [Hfa Hua] [Hfb Hub]. unfold no_inverter_update in *.
        rewrite fetches_app, updates_app, Hfa, Hfb. split; [reflexivity|].
        apply Forall_app; auto.
      + intros item sx sx' rx Hx.
        now apply (read_legacy_dispatch_events num ext_inverter resp item sx sx' rx Hext).
    - injection Hbody as <- _. cbn [trace]. exists []. repeat split. constructor. }
  destruct Hb as (es & Ht & Hf & Hu).
  exists ([ LogDebug ("BatterX IP-Adresse: " +++ ip);
            LogDebug ("BatterX externer WR: " +++ str_int ext_inverter) ]
          ++ map SlotAcquired (keys d)
          ++ HttpGet (currentstate_url ip) 5 :: es
          ++ map (fun k => SlotReleased k
                             match rb with Ok _ => None | Raise e => Some e end) (keys d)).
  split; [rewrite Ht, Ht1; now rewrite <- !app_assoc|].
  assert (Ha : forall l, fetches (map (@SlotAcquired payload inverter_state) l) = []
                         /\ updates (map (@SlotAcquired payload inverter_state) l) = [])
    by (induction l; simpl; auto).
  assert (Hr : forall o l,
             fetches (map (fun k => @SlotReleased payload inverter_state k o) l) = []
             /\ updates (map (fun k => @SlotReleased payload inverter_state k o) l) = [])
    by (induction l; simpl; auto).
  unfold no_inverter_update in *.
  cbn [app fetches updates].
  rewrite fetches_app, updates_app. cbn [fetches updates].
  rewrite fetches_app, updates_app.
  rewrite (proj1 (Ha _)), (proj2 (Ha _)), (proj1 (Hr _ _)), (proj2 (Hr _ _)), Hf.
  cbn [app]. rewrite app_nil_r. split; [reflexivity | exact Hu].
Qed.

(** ** More on [add_component] *)

(** A tag the class table has, the module table has too. *)
Lemma class_tag_has_module (tag : string) (cls : component_class) :
  lookup COMPONENT_TYPE_TO_CLASS tag = Some cls ->
  exists module, lookup COMPONENT_TYPE_TO_MODULE tag = Some module.
Proof.
  simpl.
  destruct (String.eqb tag "bat"); [eauto|].
  destruct (String.eqb tag "counter"); [eauto|].
  destruct (String.eqb tag "inverter"); [eauto|discriminate].
Qed.

(** X1.  A configuration whose type tag is a str that is no key of
    [COMPONENT_TYPE_TO_MODULE], or is an int or [None], makes
    [add_component] raise the [KeyError] of that lookup, with the tag as
    its argument; a mapping without ["type"] makes it raise
    [KeyError('type')].  Either way nothing is stored.  The tags spoken of
    are the values of [pyval]: nothing is said of a tag of another kind,
    such as a list or a mapping. *)
Theorem add_component_type_lookup_errors
    (component_config : config_input component_setup) (s : st) :
  (forall d, component_config = FromDict d -> lookup d "type" = None ->
     add_component E component_config s = (s, Raise (KeyError (PStr "type"))))
  /\ (forall tag, type_tag component_config = Ok tag ->
        contains COMPONENT_TYPE_TO_MODULE tag = false ->
        add_component E component_config s = (s, Raise (KeyError tag))).
Proof.
  split.
  - intros d -> Hl. rewrite add_component_run. cbn [type_tag getitem]. now rewrite Hl.
  - intros tag Ht Hc. rewrite add_component_run, Ht.
    destruct tag as [tg| |]; cbn [getitem]; try reflexivity.
    cbn [contains] in Hc.
    destruct (lookup COMPONENT_TYPE_TO_MODULE tg); [discriminate|reflexivity].
Qed.

(** X2.  For a type tag that [COMPONENT_TYPE_TO_MODULE] has and
    [COMPONENT_TYPE_TO_CLASS] lacks, a configuration that normalizes makes
    [add_component] raise the exception that names the tag and lists the
    keys of the class table, and nothing is stored. *)
Theorem add_component_tag_without_class
    (component_config : config_input component_setup) (s : st)
    (tag : string) (module : component_module) (setup : component_setup) :
  type_tag component_config = Ok (PStr tag) ->
  lookup COMPONENT_TYPE_TO_MODULE tag = Some module ->
  lookup COMPONENT_TYPE_TO_CLASS tag = None ->
  dataclass_from_dict_setup _ _ _ E module component_config = Ok setup ->
  add_component E component_config s
  = (s, Raise (Exception_ ("illegal component type " +++ tag
                             +++ ". Allowed values: bat,counter,inverter"))).
Proof.
  intros Ht Hm Hc Hn. rewrite add_component_run, Ht.
  cbn [getitem contains]. rewrite Hm, Hn, Hc. reflexivity.
Qed.

(** X3.  When [add_component] returns normally, the type tag is a str
    that is a key of both tables, the configuration normalizes, the
    device has its attributes and the constructor of the class returns;
    the state the call leaves differs from the one it found by the one
    entry stored under the key of the id of the normalized configuration:
    an instance of the class of the tag, built for the id of the device
    from the normalized configuration. *)
Theorem add_component_returns_only_if
    (component_config : config_input component_setup) (s s' : st) :
  add_component E component_config s = (s', Ok tt) ->
  exists (tag : string) (module : component_module) (cls : component_class)
         (setup : component_setup) (cfg : BatterX) (d : pydict),
    type_tag component_config = Ok (PStr tag)
    /\ lookup COMPONENT_TYPE_TO_MODULE tag = Some module
    /\ lookup COMPONENT_TYPE_TO_CLASS tag = Some cls
    /\ dataclass_from_dict_setup _ _ _ E module component_config = Ok setup
    /\ device_config (self s) = Some cfg
    /\ component_init _ _ _ E cls (bx_id cfg) setup = None
    /\ components (self s) = Some d
    /\ s' = {| self := constructed
                         (setitem d ("component" +++ str_id (setup_id setup))
                            {| comp_class := cls;
                               comp_device_id := bx_id cfg;
                               comp_config := setup |})
                         cfg;
               trace := trace s |}.
Proof.
  rewrite add_component_run.
  destruct (type_tag component_config) as [[tag| |]|e] eqn:Ht;
    cbn [getitem contains]; try discriminate.
  destruct (lookup COMPONENT_TYPE_TO_MODULE tag) as [module|] eqn:Hm; [|discriminate].
  destruct (dataclass_from_dict_setup _ _ _ E module component_config)
    as [setup|e] eqn:Hn; [|discriminate].
  destruct (lookup COMPONENT_TYPE_TO_CLASS tag) as [cls|] eqn:Hc; [|discriminate].
  destruct (device_config (self s)) as [cfg|] eqn:Hcfg; [|discriminate].
  destruct (component_init _ _ _ E cls (bx_id cfg) setup) as [e|] eqn:Hi; [discriminate|].
  destruct (components (self s)) as [d|] eqn:Hd; [|discriminate].
  intros [= <-]. exists tag, module, cls, setup, cfg, d. repeat split; auto.
Qed.

(** X4.  [add_component] handles no exception of its collaborators.  For
    a str type tag that is a key of [COMPONENT_TYPE_TO_MODULE], on a
    device that has its attributes, the exception with which the
    normalization of the configuration fails, or, when the tag has a class
    and the configuration normalizes, the exception with which the
    constructor of that class fails, is the exception [add_component]
    raises, unchanged; nothing is stored and the device is left as it
    was. *)
Theorem add_component_propagates_errors
    (component_config : config_input component_setup)
    (d : pydict) (cfg : BatterX) (t : list ev)
    (tag : string) (module : component_module) (e : exn) :
  type_tag component_config = Ok (PStr tag) ->
  lookup COMPONENT_TYPE_TO_MODULE tag = Some module ->
  dataclass_from_dict_setup _ _ _ E module component_config = Raise e
  \/ (exists (cls : component_class) (setup : component_setup),
        lookup COMPONENT_TYPE_TO_CLASS tag = Some cls
        /\ dataclass_from_dict_setup _ _ _ E module component_config = Ok setup
        /\ component_init _ _ _ E cls (bx_id cfg) setup = Some e) ->
  add_component E component_config {| self := constructed d cfg; trace := t |}
  = ({| self := constructed d cfg; trace := t |}, Raise e).
Proof.
  intros Ht Hm Hfail. rewrite add_component_run, Ht.
  cbn [getitem contains]. rewrite Hm.
  destruct Hfail as [Hn|(cls & setup & Hc & Hn & Hi)]; rewrite Hn; [reflexivity|].
  rewrite Hc. cbn [self constructed device_config]. now rewrite Hi.
Qed.

(** One call of [add_component] on a device with its attributes keeps the
    configuration of the device and the events, keeps the components bound
    to the device, and adds at most one entry. *)
Lemma add_component_keeps_device (component_config : config_input component_setup)
    (d : pydict) (cfg : BatterX) (t : list ev) :
  bound_to (bx_id cfg) d ->
  exists d',
    fst (add_component E component_config {| self := constructed d cfg; trace := t |})
    = {| self := constructed d' cfg; trace := t |}
    /\ bound_to (bx_id cfg) d'
    /\ (List.length d' <= S (List.length d))%nat.
Proof.
  intros Hb.
  destruct (add_component_cases component_config {| self := constructed d cfg; trace := t |})
    as [[e He]|(module & cls & setup & cfg' & d0 & _ & _ & Hcfg & Hd & He)];
    rewrite He; cbn [fst].
  - exists d. auto.
  - cbn [self constructed device_config components] in Hcfg, Hd.
    injection Hcfg as <-. injection Hd as <-.
    eexists. split; [reflexivity|].
    set (c := {| comp_class := cls; comp_device_id := bx_id cfg; comp_config := setup |}).
    set (k := "component" +++ str_id (setup_id setup)).
    split.
    + unfold bound_to in *. clear He.
      induction d as [|[k' c'] d IH]; cbn [setitem].
      * repeat constructor.
      * inversion Hb; subst.
        destruct (String.eqb k k'); constructor; auto.
    + destruct (lookup d k) as [c0|] eqn:Hl.
      * destruct (setitem_present d k c c0 Hl) as [_ ->]. auto.
      * rewrite (setitem_absent d k c Hl), length_app. simpl. lia.
Qed.

(** X5.  Through any sequence of [add_component] calls on a new device,
    whatever each call returns or raises, the configuration of the device
    stays the one it was constructed with and nothing is logged, requested
    or published; every component of the collection was built for the id
    of that device; and the collection has at most one entry per call. *)
Theorem add_components_keep_device (cfg : BatterX)
    (configs : list (config_input component_setup)) (t : list ev) :
  exists d : pydict,
    add_components E configs {| self := constructed [] cfg; trace := t |}
    = {| self := constructed d cfg; trace := t |}
    /\ bound_to (bx_id cfg) d
    /\ (List.length d <= List.length configs)%nat.
Proof.
  assert (H : forall configs d0, bound_to (bx_id cfg) d0 ->
            exists d, add_components E configs {| self := constructed d0 cfg; trace := t |}
                      = {| self := constructed d cfg; trace := t |}
                      /\ bound_to (bx_id cfg) d
                      /\ (List.length d <= List.length d0 + List.length configs)%nat).
  { clear configs. induction configs as [|c configs IH]; intros d0 Hb.
    - exists d0. cbn. repeat split; auto. lia.
    - cbn [add_components fold_left].
      destruct (add_component_keeps_device c d0 cfg t Hb) as (d1 & -> & Hb1 & Hl1).
      destruct (IH d1 Hb1) as (d2 & Hrun & Hb2 & Hl2).
      exists d2. split; [exact Hrun|]. split; [exact Hb2|]. cbn [List.length]. lia. }
  destruct (H configs [] ltac:(constructor)) as (d & Hrun & Hb & Hl).
  exists d. auto.
Qed.

(** X6.  Components with different ids coexist.  On a device that got its
    collection through [add_component], a call that returns has built its
    component from its own configuration; when no entry has the id of
    that configuration, the component is appended as a new last entry and
    every entry that was there stays as it was (ids print to different
    strings, and [None] prints to none of them, so the key of a new id
    never meets the key of another id); when an entry has that id, the
    component is stored under its key, and the collection keeps its
    length, its keys, its ids and what its other keys hold. *)
Theorem add_component_new_id_appends (cfg : BatterX)
    (configs : list (config_input component_setup)) (t : list ev)
    (component_config : config_input component_setup) (s' : st) :
  add_component E component_config
    (add_components E configs {| self := constructed [] cfg; trace := t |})
  = (s', Ok tt) ->
  exists (d : pydict) (tag : string) (module : component_module)
         (cls : component_class) (setup : component_setup),
    add_components E configs {| self := constructed [] cfg; trace := t |}
    = {| self := constructed d cfg; trace := t |}
    /\ type_tag component_config = Ok (PStr tag)
    /\ lookup COMPONENT_TYPE_TO_MODULE tag = Some module
    /\ lookup COMPONENT_TYPE_TO_CLASS tag = Some cls
    /\ dataclass_from_dict_setup _ _ _ E module component_config = Ok setup
    /\ (~ In (setup_id setup) (ids d) ->
        s' = {| self := constructed
                          (d ++ [("component" +++ str_id (setup_id setup),
                                  {| comp_class := cls;
                                     comp_device_id := bx_id cfg;
                                     comp_config := setup |})])
                          cfg;
                trace := t |})
    /\ (In (setup_id setup) (ids d) ->
        exists d' : pydict,
          s' = {| self := constructed d' cfg; trace := t |}
          /\ lookup d' ("component" +++ str_id (setup_id setup))
             = Some {| comp_class := cls;
                       comp_device_id := bx_id cfg;
                       comp_config := setup |}
          /\ (forall k : string,
                k <> "component" +++ str_id (setup_id setup) ->
                lookup d' k = lookup d k)
          /\ List.length d' = List.length d
          /\ keys d' = keys d
          /\ ids d' = ids d).
Proof.
  intros Hrun.
  destruct (add_components_shape cfg t configs [])
    as (d & Hs & Hnd & Hk); [constructor | constructor |].
  rewrite Hs in Hrun |- *.
  apply add_component_ok_inv in Hrun.
  destruct Hrun as (tag & module & cls & setup & cfg' & d' & Ht & Hm & Hc & Hn
                    & Hcfg & Hd & ->).
  cbn [self constructed device_config components trace] in Hcfg, Hd |- *.
  injection Hcfg as <-. injection Hd as <-.
  set (c := {| comp_class := cls; comp_device_id := bx_id cfg; comp_config := setup |}).
  exists d, tag, module, cls, setup. fold c.
  do 5 (split; [reflexivity || assumption|]).
  split.
  - intros Hnew. apply (keyed_lookup_None d _ Hk) in Hnew.
    now rewrite (setitem_absent d _ c Hnew).
  - intros Hold. eexists. split; [reflexivity|].
    split; [apply lookup_setitem_same|].
    split; [intros k Hne; now apply lookup_setitem_other|].
    assert (Hl : lookup d ("component" +++ str_id (setup_id setup)) <> None)
      by (intros Hn'; now apply (keyed_lookup_None d _ Hk) in Hn').
    destruct (lookup d ("component" +++ str_id (setup_id setup))) as [c0|] eqn:Hl0;
      [clear Hl|congruence].
    destruct (setitem_present d _ c c0 Hl0) as [Hkeys Hlen].
    split; [exact Hlen|]. split; [exact Hkeys|].
    clear Hs Hnd Hold Hkeys Hlen. unfold ids.
    induction d as [|[k' c'] d IH]; [discriminate|].
    inversion Hk as [|? ? Hk' Hkd]; subst. cbn [fst snd] in Hk'.
    cbn [setitem lookup] in *.
    destruct (String.eqb_spec ("component" +++ str_id (setup_id setup)) k')
      as [Heq|Hne].
    + cbn [map snd]. f_equal. rewrite Hk' in Heq. now apply component_key_inj in Heq.
    + cbn [map]. f_equal. now apply IH.
Qed.

(** ** More on the legacy entry point *)

Lemma _add_component_unknown (component_type : string) (num : option Z) (s : st) :
  lookup COMPONENT_TYPE_TO_MODULE component_type = None ->
  _add_component E component_type num s
  = (s, Raise (Exception_ ("illegal component type " +++ component_type
                             +++ ". Allowed values: bat,counter,inverter,external_inverter"))).
Proof.
  intros Hl. unfold _add_component. cbn [contains]. now rewrite Hl.
Qed.

(** When the set-up part of [read_legacy] raises, nothing was logged. *)
Lemma read_legacy_setup_raise (component_type ip : string) (num : option Z)
    (evu_counter bat_module : option string) (ext_inverter : Z) (s s1 : st) (e : exn) :
  read_legacy_setup E component_type ip num evu_counter bat_module ext_inverter s
  = (s1, Raise e) ->
  trace s1 = trace s.
Proof.
  unfold read_legacy_setup.
  unfold bind at 1. rewrite init_run.
  destruct (dataclass_from_dict_BatterX _ _ _ E
              (FromDataclass (with_ip_address (BatterX_default _ _ _ E) ip)));
    [|now intros [= <- _]].
  unfold bind at 1.
  destruct (_add_component E component_type num _) as [sa [[]|e0]] eqn:Ha;
    apply _add_component_quiet in Ha; cbn [self trace] in Ha; destruct Ha as [Hta _];
    [|now intros [= <- _]].
  unfold bind at 1.
  destruct ((if option_string_eqb evu_counter "bezug_batterx"
             then _add_component E "counter" (Some 0) else ret tt) sa)
    as [sb [[]|e0]] eqn:Hb.
  2:{ intros [= <- _]. destruct (option_string_eqb evu_counter "bezug_batterx").
      - apply _add_component_quiet in Hb. destruct Hb. congruence.
      - discriminate. }
  assert (Htb : trace sb = trace sa).
  { destruct (option_string_eqb evu_counter "bezug_batterx").
    - apply _add_component_quiet in Hb. now destruct Hb.
    - now injection Hb as <-. }
  unfold bind at 1.
  destruct ((if option_string_eqb bat_module "speicher_batterx"
             then _add_component E "bat" (Some 3) else ret tt) sb)
    as [sc [[]|e0]] eqn:Hc.
  2:{ intros [= <- _]. destruct (option_string_eqb bat_module "speicher_batterx").
      - apply _add_component_quiet in Hc. destruct Hc. congruence.
      - discriminate. }
  unfold bind, emit. discriminate.
Qed.

(** X7.  A component type that is no key of [COMPONENT_TYPE_TO_MODULE]
    makes [_add_component] raise the exception that names it and lists the
    four keys of that table, with nothing stored; [read_legacy] called with
    such a type (on a device configuration that normalizes) raises that
    exception before it logs, acquires or requests anything. *)
Theorem read_legacy_unknown_type (component_type ip : string) (num : option Z)
    (evu_counter bat_module : option string) (ext_inverter : Z) (s : st) (cfg : BatterX) :
  lookup COMPONENT_TYPE_TO_MODULE component_type = None ->
  dataclass_from_dict_BatterX _ _ _ E
    (FromDataclass (with_ip_address (BatterX_default _ _ _ E) ip)) = Ok cfg ->
  _add_component E component_type num s
  = (s, Raise (Exception_ ("illegal component type " +++ component_type
                             +++ ". Allowed values: bat,counter,inverter,external_inverter")))
  /\ read_legacy E component_type ip num evu_counter bat_module ext_inverter s
     = ({| self := constructed [] cfg; trace := trace s |},
        Raise (Exception_ ("illegal component type " +++ component_type
                             +++ ". Allowed values: bat,counter,inverter,external_inverter"))).
Proof.
  intros Hl Hn. split; [now apply _add_component_unknown|].
  unfold read_legacy, read_legacy_setup.
  unfold bind at 1. unfold bind at 1. rewrite init_run, Hn.
  unfold bind at 1. now rewrite (_add_component_unknown _ _ _ Hl).
Qed.

(** X8.  When building the device or adding one of its components raises,
    [read_legacy] raises that exception itself: no slot is acquired, no
    request is made, no component is updated, and not even the two debug
    lines are logged. *)
Theorem read_legacy_setup_failure (component_type ip : string) (num : option Z)
    (evu_counter bat_module : option string) (ext_inverter : Z) (s s1 : st) (e : exn) :
  read_legacy_setup E component_type ip num evu_counter bat_module ext_inverter s
  = (s1, Raise e) ->
  read_legacy E component_type ip num evu_counter bat_module ext_inverter s
  = (s1, Raise e)
  /\ trace s1 = trace s.
Proof.
  intros Hsetup. split.
  - unfold read_legacy. now rewrite (bind_raise _ _ _ _ _ Hsetup).
  - now apply read_legacy_setup_raise in Hsetup.
Qed.

(** With the flag at 0 every turn of the loop is an [update] call. *)
Lemma read_legacy_dispatch_zero (num : option Z) (resp : payload)
    (item : string * component) (s : st) :
  read_legacy_dispatch E num 0 resp item s = call_update E (snd item) resp s.
Proof.
  unfold read_legacy_dispatch, isinstance.
  destruct (comp_class (snd item)); reflexivity.
Qed.

(** A loop whose turns are [update] calls goes through the entries in
    order and ends at the first call that raises. *)
Lemma dict_iter_calls (resp : payload) (dev : Device)
    (body : string * component -> M payload inverter_state unit) (rest : pydict) :
  (forall item s, body item s = call_update E (snd item) resp s) ->
  forall (pre : pydict) (t : list ev),
    components dev = Some (pre ++ rest) ->
    dict_iter (List.length (pre ++ rest)) (List.length rest) (List.length pre)
      body {| self := dev; trace := t |}
    = ({| self := dev;
          trace := t ++ map (fun c => Update c resp) (reached upd resp (values rest)) |},
       match first_failure upd resp (values rest) with
       | None => Ok tt
       | Some e => Raise e
       end).
Proof.
  intros Hbody.
  induction rest as [|[k c] rest IH]; intros pre t Hd.
  - rewrite (dict_iter_end _ _ _ _ (pre ++ [])); auto.
    simpl. now rewrite (app_nil_r t).
  - simpl List.length.
    rewrite (dict_iter_step _ _ _ _ _ (pre ++ (k, c) :: rest) (k, c));
      auto using nth_error_middle.
    unfold bind at 1. rewrite Hbody, call_update_run. simpl.
    destruct (upd c resp) as [e|] eqn:Hu; [reflexivity|].
    replace (pre ++ (k, c) :: rest) with ((pre ++ [(k, c)]) ++ rest) in *
      by now rewrite <- app_assoc.
    replace (S (List.length pre)) with (List.length (pre ++ [(k, c)]))
      by (rewrite length_app; simpl; apply Nat.add_1_r).
    rewrite IH; auto.
    now rewrite <- app_assoc.
Qed.

(** X9.  With the external inverter flag at 0, once its set-up part has
    returned, [read_legacy] runs the cycle of [Device.update] on the
    collection it built: one GET of the current state with timeout 5, and,
    when it succeeds, one [update] with the decoded document on each
    component, of whatever class, in the order of the collection up to and
    including the first that raises; no component is called when the
    request fails.  The device is left as the set-up built it. *)
Theorem read_legacy_flag_zero_cycle (component_type ip : string) (num : option Z)
    (evu_counter bat_module : option string) (s s1 s2 : st) (r : result unit) :
  read_legacy_setup E component_type ip num evu_counter bat_module 0 s = (s1, Ok tt) ->
  read_legacy E component_type ip num evu_counter bat_module 0 s = (s2, r) ->
  exists (d : pydict) (es : list ev),
    components (self s1) = Some d
    /\ self s2 = self s1
    /\ trace s2 = trace s1 ++ es
    /\ fetches es = [(currentstate_url ip, 5)]
    /\ updates es = dispatch_calls E d (currentstate_url ip).
Proof.
  intros Hsetup. unfold read_legacy.
  rewrite (bind_ok _ _ _ _ _ Hsetup).
  destruct (read_legacy_setup_ok _ _ _ _ _ _ _ _ Hsetup) as [Hc _].
  destruct (components (self s1)) as [d|] eqn:Hd; [clear Hc|congruence].
  rewrite (bind_ok _ _ _ _ _ (getattr_components_some s1 d Hd)).
  assert (Hbody :
    bind (get_json E ("http://" +++ ip +++ "/api.php?get=currentstate") 5)
      (fun resp_json => for_in_dict (read_legacy_dispatch E num 0 resp_json))
      {| self := self s1; trace := trace s1 ++ map SlotAcquired (keys d) |}
    = ({| self := self s1;
          trace := (trace s1 ++ map SlotAcquired (keys d))
                   ++ HttpGet (currentstate_url ip) 5
                   :: map (fun call => Update (fst call) (snd call))
                        (dispatch_calls E d (currentstate_url ip)) |},
       match cycle_outcome E d (currentstate_url ip) with
       | None => Ok tt
       | Some e => Raise e
       end)).
  { unfold bind at 1. rewrite get_json_run.
    fold (currentstate_url ip). cbn [self trace].
    unfold dispatch_calls, cycle_outcome.
    destruct (fetch_result E (currentstate_url ip) 5) as [resp|e].
    - unfold for_in_dict, bind at 1, getattr_components at 1. cbn [self]. rewrite Hd.
      rewrite (dict_iter_calls resp (self s1) _ d
                 (read_legacy_dispatch_zero num resp) [] _ Hd).
      rewrite map_map. cbn [fst snd]. now rewrite <- app_assoc.
    - cbn [map]. reflexivity. }
  rewrite (with_MultiComponentUpdateContext_run d _ s1 _ _ Hbody).
  intros [= <- _]. cbn [self trace].
  exists d, (cycle_events d (currentstate_url ip)
               (dispatch_calls E d (currentstate_url ip))
               (cycle_outcome E d (currentstate_url ip))).
  split; [reflexivity|]. split; [reflexivity|].
  split.
  - unfold cycle_events. rewrite <- !app_assoc. cbn [app].
    now destruct (cycle_outcome E d (currentstate_url ip)).
  - rewrite fetches_cycle_events, updates_cycle_events. now split.
Qed.

(** Adding the external inverter always raises, whatever the device. *)
Lemma _add_component_external_inverter (num : option Z) (s : st) :
  setup_type (configuration_factory _ _ _ E external_inverter) = "external_inverter" ->
  _add_component E "external_inverter" num s
  = (s, Raise match dataclass_from_dict_setup _ _ _ E external_inverter
                      (FromDataclass
                         (with_id (configuration_factory _ _ _ E external_inverter) num))
              with
              | Raise e => e
              | Ok _ =>
                  Exception_
                    "illegal component type external_inverter. Allowed values: bat,counter,inverter"
              end).
Proof.
  intros Htag. unfold _add_component.
  change (contains COMPONENT_TYPE_TO_MODULE (PStr "external_inverter")) with true.
  cbv iota. unfold bind at 1, lift at 1.
  change (getitem COMPONENT_TYPE_TO_MODULE (PStr "external_inverter"))
    with (@Ok component_module external_inverter).
  cbv iota zeta. rewrite add_component_run.
  cbn [type_tag with_id setup_type]. rewrite Htag.
  change (getitem COMPONENT_TYPE_TO_MODULE (PStr "external_inverter"))
    with (@Ok component_module external_inverter).
  cbv iota.
  destruct (dataclass_from_dict_setup _ _ _ E external_inverter _); reflexivity.
Qed.

(** X10.  With the external inverter flag set, a cycle of [read_legacy]
    whose collection begins with an inverter ends at that inverter: the
    attempt to add the external inverter raises (its tag has no class),
    so, whether the request succeeded or not, no component at all is
    updated, the counter and the battery included, and nothing is written
    to the inverter value store.  The default setup of the external
    inverter is taken to carry its own type tag. *)
Theorem read_legacy_ext_inverter_updates_nothing (component_type ip : string)
    (num : option Z) (evu_counter bat_module : option string) (ext_inverter : Z)
    (s s1 s2 : st) (r : result unit)
    (k : string) (c : component) (rest : pydict) :
  ext_inverter <> 0 ->
  setup_type (configuration_factory _ _ _ E external_inverter) = "external_inverter" ->
  read_legacy_setup E component_type ip num evu_counter bat_module ext_inverter s
  = (s1, Ok tt) ->
  components (self s1) = Some ((k, c) :: rest) ->
  comp_class c = BatterXInverter ->
  read_legacy E component_type ip num evu_counter bat_module ext_inverter s = (s2, r) ->
  exists es : list ev,
    self s2 = self s1
    /\ trace s2 = trace s1 ++ es
    /\ fetches es = [(currentstate_url ip, 5)]
    /\ updates es = []
    /\ published es = [].
Proof.
  intros Hext Htag Hsetup Hd Hcls. unfold read_legacy.
  rewrite (bind_ok _ _ _ _ _ Hsetup).
  rewrite (bind_ok _ _ _ _ _ (getattr_components_some s1 _ Hd)).
  set (d := (k, c) :: rest) in *.
  assert (Hbody : exists e,
    bind (get_json E ("http://" +++ ip +++ "/api.php?get=currentstate") 5)
      (fun resp_json => for_in_dict (read_legacy_dispatch E num ext_inverter resp_json))
      {| self := self s1; trace := trace s1 ++ map SlotAcquired (keys d) |}
    = ({| self := self s1;
          trace := (trace s1 ++ map SlotAcquired (keys d))
                   ++ [HttpGet (currentstate_url ip) 5] |},
       Raise e)).
  { unfold bind at 1. rewrite get_json_run.
    fold (currentstate_url ip). cbn [self trace].
    destruct (fetch_result E (currentstate_url ip) 5) as [resp|e]; [|eauto].
    unfold for_in_dict, bind at 1, getattr_components at 1. cbn [self]. rewrite Hd.
    subst d. cbn [List.length].
    erewrite (dict_iter_step _ _ _ _ _ ((k, c) :: rest) (k, c)); eauto.
    unfold bind at 1, read_legacy_dispatch at 1, isinstance. cbn [snd]. rewrite Hcls.
    cbn [existsb component_class_eqb orb].
    apply Z.eqb_neq in Hext. rewrite Hext.
    unfold bind at 1. rewrite (_add_component_external_inverter _ _ Htag).
    eauto. }
  destruct Hbody as [e Hbody].
  rewrite (with_MultiComponentUpdateContext_run d _ s1 _ _ Hbody).
  intros [= <- _]. cbn [self trace].
  exists (map SlotAcquired (keys d) ++ [HttpGet (currentstate_url ip) 5]
          ++ map (fun k0 => SlotReleased k0 (Some e)) (keys d)).
  split; [reflexivity|]. split; [now rewrite <- !app_assoc|].
  assert (Ha : forall l, fetches (map (@SlotAcquired payload inverter_state) l) = []
                         /\ updates (map (@SlotAcquired payload inverter_state) l) = []
                         /\ published (map (@SlotAcquired payload inverter_state) l) = [])
    by (induction l; simpl; auto).
  assert (Hr : forall o l,
             fetches (map (fun k0 => @SlotReleased payload inverter_state k0 o) l) = []
             /\ updates (map (fun k0 => @SlotReleased payload inverter_state k0 o) l) = []
             /\ published (map (fun k0 => @SlotReleased payload inverter_state k0 o) l) = [])
    by (induction l; simpl; auto).
  rewrite !fetches_app, !updates_app, !published_app. cbn [fetches updates published].
  destruct (Ha (keys d)) as (-> & -> & ->).
  destruct (Hr (Some e) (keys d)) as (-> & -> & ->).
  repeat split.
Qed.

(** What one turn of the loop of [read_legacy] writes to the value store:
    nothing, the external inverter never being added. *)
Lemma read_legacy_dispatch_publishes_nothing (num : option Z) (ext_inverter : Z)
    (resp : payload) (item : string * component) (s s' : st) (r : result unit) :
  setup_type (configuration_factory _ _ _ E external_inverter) = "external_inverter" ->
  read_legacy_dispatch E num ext_inverter resp item s = (s', r) ->
  exists es : list ev, trace s' = trace s ++ es /\ published es = [].
Proof.
  intros Htag. unfold read_legacy_dispatch.
  destruct (isinstance (snd item) [BatterXBat; BatterXCounter]).
  - rewrite call_update_run. intros [= <- _]. cbn [trace]. eexists. split; reflexivity.
  - destruct (isinstance (snd item) [BatterXInverter]).
    + destruct (ext_inverter =? 0).
      * rewrite call_update_run. intros [= <- _]. cbn [trace]. eexists. split; reflexivity.
      * unfold bind at 1. rewrite (_add_component_external_inverter _ _ Htag).
        intros [= <- _]. exists []. now rewrite app_nil_r.
    + intros [= <- _]. exists []. now rewrite app_nil_r.
Qed.

(** X11.  The write of [read_legacy] to the inverter value store (line
    115, the one place where device.py itself calls the store) is never
    carried out, whatever the arguments and whatever the device answers:
    it comes after the call that adds the external inverter, and that
    call always raises.  What a component publishes inside its own
    [update] is no part of this statement.  The default setup of the
    external inverter is taken to carry its own type tag. *)
Theorem read_legacy_publishes_nothing (component_type ip : string) (num : option Z)
    (evu_counter bat_module : option string) (ext_inverter : Z)
    (s s2 : st) (r : result unit) :
  setup_type (configuration_factory _ _ _ E external_inverter) = "external_inverter" ->
  read_legacy E component_type ip num evu_counter bat_module ext_inverter s = (s2, r) ->
  exists es : list ev, trace s2 = trace s ++ es /\ published es = [].
Proof.
  intros Htag. unfold read_legacy.
  destruct (read_legacy_setup E component_type ip num evu_counter bat_module
              ext_inverter s) as [s1 [[]|e]] eqn:Hsetup.
  2:{ rewrite (bind_raise _ _ _ _ _ Hsetup). intros [= <- _].
      apply read_legacy_setup_raise in Hsetup. exists []. now rewrite app_nil_r. }
  rewrite (bind_ok _ _ _ _ _ Hsetup).
  destruct (read_legacy_setup_ok _ _ _ _ _ _ _ _ Hsetup) as [Hc Ht1].
  destruct (components (self s1)) as [d|] eqn:Hd; [clear Hc|congruence].
  rewrite (bind_ok _ _ _ _ _ (getattr_components_some s1 d Hd)).
  set (body := bind _ _).
  destruct (body {| self := self s1; trace := trace s1 ++ map SlotAcquired (keys d) |})
    as [sb rb] eqn:Hbody.
  rewrite (with_MultiComponentUpdateContext_run d body s1 sb rb Hbody).
  intros [= <- _]. cbn [trace].
  assert (Ha : forall l, published (map (@SlotAcquired payload inverter_state) l) = [])
    by (induction l; simpl; auto).
  assert (Hr : forall o l,
             published (map (fun k => @SlotReleased payload inverter_state k o) l) = [])
    by (induction l; simpl; auto).
  assert (Hb : exists es, trace sb = (trace s1 ++ map SlotAcquired (keys d)) ++ es
                          /\ published es = []).
  { subst body. unfold bind at 1 in Hbody. rewrite get_json_run in Hbody.
    cbn [self trace] in Hbody.
    destruct (fetch_result E _ 5) as [resp|e].
    - unfold for_in_dict, bind at 1, getattr_components at 1 in Hbody.
      cbn [self] in Hbody. rewrite Hd in Hbody.
      apply (dict_iter_events (fun es => published es = [])) in Hbody.
      + destruct Hbody as (es & Ht & HP). cbn [trace] in Ht.
        exists (HttpGet ("http://" +++ ip +++ "/api.php?get=currentstate") 5 :: es).
        split; [now rewrite Ht, <- app_assoc | exact HP].
      + reflexivity.
      + intros a b Ha' Hb'. now rewrite published_app, Ha', Hb'.
      + intros item sx sx' rx Hx.
        now apply (read_legacy_dispatch_publishes_nothing num ext_inverter resp
                     item sx sx' rx Htag).
    - injection Hbody as <- _. cbn [trace]. eexists. split; reflexivity. }
  destruct Hb as (es & Ht & Hp).
  eexists. split.
  - rewrite Ht, Ht1. rewrite <- !app_assoc. reflexivity.
  - cbn [app published]. rewrite !published_app, Ha, Hp, Hr. reflexivity.
Qed.

(** [_add_component] on a device with its attributes, when the type has a
    class, normalizing a dataclass returns it, the default setup carries
    the tag of its module and the constructor returns. *)
Lemma _add_component_stores (component_type : string) (num : option Z)
    (module : component_module) (cls : component_class)
    (d : pydict) (cfg : BatterX) (t : list ev) :
  lookup COMPONENT_TYPE_TO_MODULE component_type = Some module ->
  lookup COMPONENT_TYPE_TO_CLASS component_type = Some cls ->
  setup_type (configuration_factory _ _ _ E module) = component_type ->
  (forall m c, dataclass_from_dict_setup _ _ _ E m (FromDataclass c) = Ok c) ->
  (forall k i c, component_init _ _ _ E k i c = None) ->
  _add_component E component_type num {| self := constructed d cfg; trace := t |}
  = ({| self := constructed
                  (setitem d ("component" +++ str_id num)
                     {| comp_class := cls;
                        comp_device_id := bx_id cfg;
                        comp_config := with_id (configuration_factory _ _ _ E module) num |})
                  cfg;
        trace := t |}, Ok tt).
Proof.
  intros Hm Hc Htag Hnorm Hinit. unfold _add_component.
  cbn [contains getitem]. rewrite Hm. unfold bind at 1, lift at 1.
  cbv iota zeta. rewrite add_component_run.
  cbn [type_tag with_id setup_type setup_id getitem contains]. rewrite Htag, Hm, Hnorm, Hc.
  cbn [self constructed device_config components setup_id].
  now rewrite Hinit.
Qed.

(** X12.  The collection [read_legacy] builds, when normalizing a
    dataclass returns it, the default setups carry the tags of their
    modules and the constructors return: the primary component under
    ["component" + str(num)], then the counter with id 0 if [evu_counter]
    asks for it, then the battery with id 3 if [bat_module] does, each
    stored as [add_component] stores: a primary component whose id is 0
    or 3 is replaced by the counter or the battery that takes its key.
    Only after that are the two debug lines logged. *)
Theorem read_legacy_setup_collection (component_type ip : string) (num : option Z)
    (evu_counter bat_module : option string) (ext_inverter : Z) (s : st)
    (cfg : BatterX) (module : component_module) (cls : component_class) :
  dataclass_from_dict_BatterX _ _ _ E
    (FromDataclass (with_ip_address (BatterX_default _ _ _ E) ip)) = Ok cfg ->
  lookup COMPONENT_TYPE_TO_MODULE component_type = Some module ->
  lookup COMPONENT_TYPE_TO_CLASS component_type = Some cls ->
  (forall tag m, lookup COMPONENT_TYPE_TO_MODULE tag = Some m ->
                 setup_type (configuration_factory _ _ _ E m) = tag) ->
  (forall m c, dataclass_from_dict_setup _ _ _ E m (FromDataclass c) = Ok c) ->
  (forall k i c, component_init _ _ _ E k i c = None) ->
  let built (k : component_class) (m : component_module) (i : option Z) :=
    {| comp_class := k;
       comp_device_id := bx_id cfg;
       comp_config := with_id (configuration_factory _ _ _ E m) i |} in
  let d0 := [("component" +++ str_id num, built cls module num)] in
  let d1 := if option_string_eqb evu_counter "bezug_batterx"
            then setitem d0 ("component" +++ str_id (Some 0))
                   (built BatterXCounter counter (Some 0))
            else d0 in
  let d2 := if option_string_eqb bat_module "speicher_batterx"
            then setitem d1 ("component" +++ str_id (Some 3))
                   (built BatterXBat bat (Some 3))
            else d1 in
  read_legacy_setup E component_type ip num evu_counter bat_module ext_inverter s
  = ({| self := constructed d2 cfg;
        trace := trace s ++ [ LogDebug ("BatterX IP-Adresse: " +++ ip);
                              LogDebug ("BatterX externer WR: " +++ str_int ext_inverter) ] |},
     Ok tt).
Proof.
  intros Hn Hm Hc Htag Hnorm Hinit built d0 d1 d2.
  unfold read_legacy_setup.
  unfold bind at 1. rewrite init_run, Hn.
  unfold bind at 1.
  rewrite (_add_component_stores component_type num module cls [] cfg (trace s)
             Hm Hc (Htag _ _ Hm) Hnorm Hinit).
  change (setitem [] ("component" +++ str_id num) _) with d0.
  unfold bind at 1.
  assert (H1 : (if option_string_eqb evu_counter "bezug_batterx"
                then _add_component E "counter" (Some 0) else ret tt)
                 {| self := constructed d0 cfg; trace := trace s |}
               = ({| self := constructed d1 cfg; trace := trace s |}, Ok tt)).
  { subst d1. destruct (option_string_eqb evu_counter "bezug_batterx"); [|reflexivity].
    apply (_add_component_stores "counter" (Some 0) counter BatterXCounter); auto. }
  rewrite H1. unfold bind at 1.
  assert (H2 : (if option_string_eqb bat_module "speicher_batterx"
                then _add_component E "bat" (Some 3) else ret tt)
                 {| self := constructed d1 cfg; trace := trace s |}
               = ({| self := constructed d2 cfg; trace := trace s |}, Ok tt)).
  { subst d2. destruct (option_string_eqb bat_module "speicher_batterx"); [|reflexivity].
    apply (_add_component_stores "bat" (Some 3) bat BatterXBat); auto. }
  rewrite H2. unfold bind, emit. cbn [self trace].
  now rewrite <- app_assoc.
Qed.
End Properties.

(** ** The theorems at work on the concrete installation *)

Lemma sample_collection_keys : NoDup (keys sample_collection).
Proof.
  repeat constructor; simpl; intuition discriminate.
Qed.

(** C4 at work: the request times out on a device with three components. *)
Lemma update_fetch_failure_witness :
  exists es : list (event string numeric),
    update (sample nothing_broken (Raise sample_timeout))
      {| self := constructed sample_collection sample_BatterX; trace := [] |}
    = ({| self := constructed sample_collection sample_BatterX; trace := [] ++ es |}, Ok tt)
    /\ es = LogDebug ("Start device reading "
                      +++ str_dict (component_repr _ _ _
                                      (sample nothing_broken (Raise sample_timeout)))
                            sample_collection)
            :: map SlotAcquired (keys sample_collection)
            ++ [HttpGet (currentstate_url (ip_address (bx_configuration sample_BatterX))) 5]
            ++ map (fun k => SlotReleased k (Some sample_timeout)) (keys sample_collection)
    /\ updates es = []
    /\ acquired es = keys sample_collection
    /\ released es = map (fun k => (k, Some sample_timeout)) (keys sample_collection).
Proof.
  apply (update_fetch_failure (sample nothing_broken (Raise sample_timeout))
           sample_collection sample_BatterX [] sample_timeout).
  - discriminate.
  - exact sample_collection_keys.
  - reflexivity.
Defined.

(** C2 at work: the request returns ["doc"] and every component succeeds:
    one request, and each of the three components is given ["doc"] once. *)
Lemma update_one_fetch_then_dispatch_witness :
  exists es : list (event string numeric),
    update (sample nothing_broken (Ok "doc"))
      {| self := constructed sample_collection sample_BatterX; trace := [] |}
    = ({| self := constructed sample_collection sample_BatterX; trace := [] ++ es |}, Ok tt)
    /\ fetches es = [(sample_url, 5)]
    /\ updates es
       = [(sample_bat, "doc"); (sample_counter, "doc"); (sample_inverter, "doc")].
Proof.
  destruct (update_one_fetch_then_dispatch (sample nothing_broken (Ok "doc"))
              sample_collection sample_BatterX [])
    as (es & Hrun & Hfetch & Hcalls).
  - discriminate.
  - exact sample_collection_keys.
  - exists es. split; [exact Hrun|]. split; [exact Hfetch|].
    apply (Hcalls "doc").
    + reflexivity.
    + intros c Hc. reflexivity.
Defined.

(** C1 at work: the counter, second of three, fails. *)
Lemma update_ends_at_failing_component_witness :
  exists es : list (event string numeric),
    update (sample counter_broken (Ok "doc"))
      {| self := constructed sample_collection sample_BatterX; trace := [] |}
    = ({| self := constructed sample_collection sample_BatterX; trace := [] ++ es |}, Ok tt)
    /\ updates es = map (fun x => (x, "doc")) ([sample_bat] ++ [sample_counter])
    /\ released es
       = map (fun k => (k, Some (Foreign "counter" "update failed")))
           (keys sample_collection).
Proof.
  apply (update_ends_at_failing_component (sample counter_broken (Ok "doc"))
           sample_collection sample_BatterX [] "doc"
           [sample_bat] [sample_inverter] sample_counter
           (Foreign "counter" "update failed")).
  - exact sample_collection_keys.
  - reflexivity.
  - reflexivity.
  - intros b [<-|[]]. reflexivity.
  - reflexivity.
Defined.

(** C9 at work: a battery given as a mapping is added to a new device. *)
Lemma add_component_atomic_witness :
  exists (module : component_module) (setup : component_setup)
         (c : component) (d : pydict),
    dataclass_from_dict_setup _ _ _ (sample nothing_broken (Ok "doc")) module
      (FromDict [("type", PStr "bat"); ("id", PInt 1)]) = Ok setup
    /\ comp_config c = setup
    /\ components (constructed [] sample_BatterX) = Some d
    /\ components (constructed [("component1", sample_bat)] sample_BatterX)
       = Some (setitem d ("component" +++ str_id (setup_id setup)) c)
    /\ lookup (setitem d ("component" +++ str_id (setup_id setup)) c)
         ("component" +++ str_id (setup_id setup)) = Some c
    /\ (forall k, k <> "component" +++ str_id (setup_id setup) ->
          lookup (setitem d ("component" +++ str_id (setup_id setup)) c) k = lookup d k)
    /\ device_config (constructed [("component1", sample_bat)] sample_BatterX)
       = device_config (constructed [] sample_BatterX)
    /\ @nil (event string numeric) = [].
Proof.
  apply (add_component_atomic (sample nothing_broken (Ok "doc"))
           (FromDict [("type", PStr "bat"); ("id", PInt 1)])
           {| self := constructed [] sample_BatterX; trace := [] |}
           {| self := constructed [("component1", sample_bat)] sample_BatterX;
              trace := [] |}
           (Ok tt)).
  reflexivity.
Defined.

(** C8 at work: 5.0 and 3.0 in either order. *)
Lemma combine_by_sum_witness :
  py_add five three = Ok eight
  /\ py_add five three = py_add three five
  /\ combine (sample nothing_broken (Ok "doc")) sample_inverter five three
     = combine (sample nothing_broken (Ok "doc")) sample_inverter three five
  /\ combine (sample nothing_broken (Ok "doc")) sample_inverter five three
     = combine (sample nothing_broken (Ok "doc")) sample_inverter three five.
Proof.
  split; [reflexivity|]. split; [reflexivity|].
  apply (combine_by_sum (sample nothing_broken (Ok "doc")) sample_inverter
           five three three five).
  reflexivity.
Defined.

(** C7 at work: an inverter with id 1, a counter, the flag set. *)
Lemma read_legacy_ext_inverter_one_fetch_witness :
  exists es : list (event string numeric),
    trace (fst (read_legacy (sample nothing_broken (Ok "doc")) "inverter" "192.168.0.9"
                  (Some 1) (Some "bezug_batterx") None 1 (start Device_new)))
    = trace (start Device_new) ++ es
    /\ fetches es = [(currentstate_url "192.168.0.9", 5)]
    /\ no_inverter_update es.
Proof.
  apply (read_legacy_ext_inverter_one_fetch (sample nothing_broken (Ok "doc"))
           "192.168.0.9" (Some 1) (Some "bezug_batterx") None 1
           (start Device_new)
           (fst (read_legacy_setup (sample nothing_broken (Ok "doc")) "inverter"
                   "192.168.0.9" (Some 1) (Some "bezug_batterx") None 1
                   (start Device_new)))
           (fst (read_legacy (sample nothing_broken (Ok "doc")) "inverter" "192.168.0.9"
                   (Some 1) (Some "bezug_batterx") None 1 (start Device_new)))
           (Ok tt)).
  - discriminate.
  - reflexivity.
  - reflexivity.
Defined.

(** ** Where the code departs from the specification *)

(** C1 fails on the code: the battery, first in the collection, fails; the
    counter, whose [update] would succeed, is never called, and both slots
    are released with the failure of the battery. *)
Lemma failing_component_ends_dispatch :
  component_update _ _ _ (sample bat_broken (Ok "doc")) sample_counter "doc" = None
  /\ ~ In (sample_counter, "doc")
         (updates (trace (fst (update (sample bat_broken (Ok "doc"))
                                 (start (constructed
                                           [ ("component1", sample_bat);
                                             ("component2", sample_counter) ]
                                           sample_BatterX))))))
  /\ released (trace (fst (update (sample bat_broken (Ok "doc"))
                             (start (constructed
                                       [ ("component1", sample_bat);
                                         ("component2", sample_counter) ]
                                       sample_BatterX)))))
     = [ ("component1", Some (Foreign "bat" "update failed"));
         ("component2", Some (Foreign "bat" "update failed")) ].
Proof.
  split; [reflexivity|]. split; [|reflexivity].
  vm_compute. intros [H|[]]. discriminate H.
Qed.

(** C2 fails on the code: the request succeeds, and of the three
    components only the first, whose [update] raises, is called. *)
Lemma successful_fetch_not_dispatched_to_all :
  fetch_result (sample bat_broken (Ok "doc")) sample_url 5 = Ok "doc"
  /\ fetches (trace (fst (update (sample bat_broken (Ok "doc"))
                            (start (constructed sample_collection sample_BatterX)))))
     = [(sample_url, 5)]
  /\ updates (trace (fst (update (sample bat_broken (Ok "doc"))
                            (start (constructed sample_collection sample_BatterX)))))
     = [(sample_bat, "doc")]
  /\ updates (trace (fst (update (sample bat_broken (Ok "doc"))
                            (start (constructed sample_collection sample_BatterX)))))
     <> map (fun c => (c, "doc")) (values sample_collection).
Proof.
  repeat split; try reflexivity. vm_compute. discriminate.
Qed.

(** C6 fails on the code: a battery and a counter with the same id do not
    coexist; both calls return, and the counter has taken the place of the
    battery under the one key ["component1"]. *)
Lemma same_id_other_type_replaces :
  add_components (sample nothing_broken (Ok "doc"))
    [ FromDict [("type", PStr "bat"); ("id", PInt 1)];
      FromDict [("type", PStr "counter"); ("id", PInt 1)] ]
    (start (constructed [] sample_BatterX))
  = start (constructed [("component1", sample_component BatterXCounter "counter" 1)]
             sample_BatterX)
  /\ snd (add_component (sample nothing_broken (Ok "doc"))
            (FromDict [("type", PStr "bat"); ("id", PInt 1)])
            (start (constructed [] sample_BatterX))) = Ok tt
  /\ snd (add_component (sample nothing_broken (Ok "doc"))
            (FromDict [("type", PStr "counter"); ("id", PInt 1)])
            (start (constructed [("component1", sample_component BatterXBat "bat" 1)]
                      sample_BatterX))) = Ok tt
  /\ ~ In (sample_component BatterXBat "bat" 1)
         (values [("component1", sample_component BatterXCounter "counter" 1)]).
Proof.
  repeat split; try reflexivity.
  simpl. intros [H|[]]. discriminate H.
Qed.

(** C7 fails on the code: with the flag set the run makes one request, not
    two, and writes nothing to the inverter value store. *)
Lemma read_legacy_ext_inverter_single_request :
  fetches (trace (fst (read_legacy (sample nothing_broken (Ok "doc")) "inverter"
                         "192.168.0.9" (Some 1) None None 1 (start Device_new))))
  = [(sample_url, 5)]
  /\ List.length
       (fetches (trace (fst (read_legacy (sample nothing_broken (Ok "doc")) "inverter"
                               "192.168.0.9" (Some 1) None None 1 (start Device_new)))))
     <> 2%nat
  /\ published (trace (fst (read_legacy (sample nothing_broken (Ok "doc")) "inverter"
                              "192.168.0.9" (Some 1) None None 1 (start Device_new))))
     = [].
Proof. repeat split; try reflexivity. vm_compute. discriminate. Qed.

(** ** The further properties at work on the concrete installation *)

(** X1 at work: a mapping without ["type"], and the tag ["foo"]. *)
Lemma add_component_type_lookup_errors_witness :
  add_component (sample nothing_broken (Ok "doc")) (FromDict [("id", PInt 1)])
    (start (constructed [] sample_BatterX))
  = (start (constructed [] sample_BatterX), Raise (KeyError (PStr "type")))
  /\ add_component (sample nothing_broken (Ok "doc"))
       (FromDataclass (sample_setup "foo" (Some 1)))
       (start (constructed [] sample_BatterX))
     = (start (constructed [] sample_BatterX), Raise (KeyError (PStr "foo"))).
Proof.
  split.
  - apply (proj1 (add_component_type_lookup_errors (sample nothing_broken (Ok "doc"))
                    (FromDict [("id", PInt 1)]) (start (constructed [] sample_BatterX)))
             [("id", PInt 1)]); reflexivity.
  - apply (proj2 (add_component_type_lookup_errors (sample nothing_broken (Ok "doc"))
                    (FromDataclass (sample_setup "foo" (Some 1)))
                    (start (constructed [] sample_BatterX)))
             (PStr "foo")); reflexivity.
Defined.

(** X2 at work: an external inverter given as a mapping. *)
Lemma add_component_tag_without_class_witness :
  add_component (sample nothing_broken (Ok "doc"))
    (FromDict [("type", PStr "external_inverter"); ("id", PInt 4)])
    (start (constructed sample_collection sample_BatterX))
  = (start (constructed sample_collection sample_BatterX),
     Raise (Exception_ ("illegal component type " +++ "external_inverter"
                          +++ ". Allowed values: bat,counter,inverter"))).
Proof.
  apply (add_component_tag_without_class (sample nothing_broken (Ok "doc"))
           (FromDict [("type", PStr "external_inverter"); ("id", PInt 4)])
           (start (constructed sample_collection sample_BatterX))
           "external_inverter" external_inverter
           (sample_setup "external_inverter" (Some 4)));
    reflexivity.
Defined.

(** X3 at work: a counter with id 2 is added to a device that has a
    battery. *)
Lemma add_component_returns_only_if_witness :
  exists (tag : string) (module : component_module) (cls : component_class)
         (setup : component_setup) (cfg : BatterX) (d : pydict),
    type_tag (FromDict [("type", PStr "counter"); ("id", PInt 2)]) = Ok (PStr tag)
    /\ lookup COMPONENT_TYPE_TO_MODULE tag = Some module
    /\ lookup COMPONENT_TYPE_TO_CLASS tag = Some cls
    /\ dataclass_from_dict_setup _ _ _ (sample nothing_broken (Ok "doc")) module
         (FromDict [("type", PStr "counter"); ("id", PInt 2)]) = Ok setup
    /\ device_config (self (@start string numeric
                              (constructed [("component1", sample_bat)] sample_BatterX)))
       = Some cfg
    /\ component_init _ _ _ (sample nothing_broken (Ok "doc")) cls (bx_id cfg) setup = None
    /\ components (self (@start string numeric
                           (constructed [("component1", sample_bat)] sample_BatterX)))
       = Some d
    /\ @start string numeric
         (constructed [("component1", sample_bat); ("component2", sample_counter)]
            sample_BatterX)
       = {| self := constructed
                      (setitem d ("component" +++ str_id (setup_id setup))
                         {| comp_class := cls;
                            comp_device_id := bx_id cfg;
                            comp_config := setup |})
                      cfg;
            trace := trace (@start string numeric
                              (constructed [("component1", sample_bat)] sample_BatterX)) |}.
Proof.
  apply (add_component_returns_only_if (sample nothing_broken (Ok "doc"))
           (FromDict [("type", PStr "counter"); ("id", PInt 2)])
           (start (constructed [("component1", sample_bat)] sample_BatterX))
           (start (constructed [("component1", sample_bat);
                                ("component2", sample_counter)]
                     sample_BatterX))).
  reflexivity.
Defined.

(** X4 at work: a battery given as a mapping without ["id"], which the
    normalization refuses, and a battery that its constructor refuses. *)
Lemma add_component_propagates_errors_witness :
  add_component (sample nothing_broken (Ok "doc")) (FromDict [("type", PStr "bat")])
    (start (constructed [("component2", sample_counter)] sample_BatterX))
  = (start (constructed [("component2", sample_counter)] sample_BatterX),
     Raise (KeyError (PStr "id")))
  /\ add_component (sample_refusing (Ok "doc"))
       (FromDict [("type", PStr "bat"); ("id", PInt 1)])
       (start (constructed [("component2", sample_counter)] sample_BatterX))
     = (start (constructed [("component2", sample_counter)] sample_BatterX),
        Raise (Foreign "bat" "configuration refused")).
Proof.
  split.
  - apply (add_component_propagates_errors (sample nothing_broken (Ok "doc"))
             (FromDict [("type", PStr "bat")])
             [("component2", sample_counter)] sample_BatterX [] "bat" bat
             (KeyError (PStr "id")));
      [reflexivity | reflexivity | left; reflexivity].
  - apply (add_component_propagates_errors (sample_refusing (Ok "doc"))
             (FromDict [("type", PStr "bat"); ("id", PInt 1)])
             [("component2", sample_counter)] sample_BatterX [] "bat" bat
             (Foreign "bat" "configuration refused"));
      [reflexivity | reflexivity |].
    right. exists BatterXBat, (sample_setup "bat" (Some 1)). repeat split.
Defined.

(** X6 at work: a counter with id 2 joins a battery with id 1. *)
Lemma add_component_new_id_appends_witness :
  exists (d : pydict) (tag : string) (module : component_module)
         (cls : component_class) (setup : component_setup),
    add_components (sample nothing_broken (Ok "doc"))
      [FromDict [("type", PStr "bat"); ("id", PInt 1)]]
      {| self := constructed [] sample_BatterX; trace := [] |}
    = {| self := constructed d sample_BatterX; trace := [] |}
    /\ type_tag (FromDict [("type", PStr "counter"); ("id", PInt 2)]) = Ok (PStr tag)
    /\ lookup COMPONENT_TYPE_TO_MODULE tag = Some module
    /\ lookup COMPONENT_TYPE_TO_CLASS tag = Some cls
    /\ dataclass_from_dict_setup _ _ _ (sample nothing_broken (Ok "doc")) module
         (FromDict [("type", PStr "counter"); ("id", PInt 2)]) = Ok setup
    /\ (~ In (setup_id setup) (ids d) ->
        @start string numeric
          (constructed [("component1", sample_bat); ("component2", sample_counter)]
             sample_BatterX)
        = {| self := constructed
                       (d ++ [("component" +++ str_id (setup_id setup),
                               {| comp_class := cls;
                                  comp_device_id := bx_id sample_BatterX;
                                  comp_config := setup |})])
                       sample_BatterX;
             trace := [] |})
    /\ (In (setup_id setup) (ids d) ->
        exists d' : pydict,
          @start string numeric
            (constructed [("component1", sample_bat); ("component2", sample_counter)]
               sample_BatterX)
          = {| self := constructed d' sample_BatterX; trace := [] |}
          /\ lookup d' ("component" +++ str_id (setup_id setup))
             = Some {| comp_class := cls;
                       comp_device_id := bx_id sample_BatterX;
                       comp_config := setup |}
          /\ (forall k : string,
                k <> "component" +++ str_id (setup_id setup) ->
                lookup d' k = lookup d k)
          /\ List.length d' = List.length d
          /\ keys d' = keys d
          /\ ids d' = ids d).
Proof.
  apply (add_component_new_id_appends (sample nothing_broken (Ok "doc")) sample_BatterX
           [FromDict [("type", PStr "bat"); ("id", PInt 1)]] []
           (FromDict [("type", PStr "counter"); ("id", PInt 2)])
           (@start string numeric
              (constructed [("component1", sample_bat); ("component2", sample_counter)]
                 sample_BatterX))).
  reflexivity.
Defined.

(** X7 at work: the component type ["foo"]. *)
Lemma read_legacy_unknown_type_witness :
  _add_component (sample nothing_broken (Ok "doc")) "foo" (Some 1) (start Device_new)
  = (start Device_new,
     Raise (Exception_ ("illegal component type " +++ "foo"
                          +++ ". Allowed values: bat,counter,inverter,external_inverter")))
  /\ read_legacy (sample nothing_broken (Ok "doc")) "foo" "192.168.0.9" (Some 1)
       None None 0 (start Device_new)
     = ({| self := constructed [] sample_BatterX; trace := trace (start Device_new) |},
        Raise (Exception_ ("illegal component type " +++ "foo"
                             +++ ". Allowed values: bat,counter,inverter,external_inverter"))).
Proof.
  apply (read_legacy_unknown_type (sample nothing_broken (Ok "doc")) "foo" "192.168.0.9"
           (Some 1) None None 0 (start Device_new) sample_BatterX);
    reflexivity.
Defined.

(** X8 at work: the external inverter as the primary component. *)
Lemma read_legacy_setup_failure_witness :
  read_legacy (sample nothing_broken (Ok "doc")) "external_inverter" "192.168.0.9"
    (Some 4) None None 0 (start Device_new)
  = (start (constructed [] sample_BatterX),
     Raise (Exception_
              "illegal component type external_inverter. Allowed values: bat,counter,inverter"))
  /\ trace (@start string numeric (constructed [] sample_BatterX))
     = trace (@start string numeric Device_new).
Proof.
  apply (read_legacy_setup_failure (sample nothing_broken (Ok "doc")) "external_inverter"
           "192.168.0.9" (Some 4) None None 0 (start Device_new)
           (start (constructed [] sample_BatterX))
           (Exception_
              "illegal component type external_inverter. Allowed values: bat,counter,inverter")).
  reflexivity.
Defined.

(** X9 at work: an inverter, a counter and a battery, the counter failing. *)
Lemma read_legacy_flag_zero_cycle_witness :
  exists (d : pydict) (es : list (event string numeric)),
    components (self (fst (read_legacy_setup (sample counter_broken (Ok "doc")) "inverter"
                             "192.168.0.9" (Some 1) (Some "bezug_batterx")
                             (Some "speicher_batterx") 0 (start Device_new)))) = Some d
    /\ self (fst (read_legacy (sample counter_broken (Ok "doc")) "inverter" "192.168.0.9"
                    (Some 1) (Some "bezug_batterx") (Some "speicher_batterx") 0
                    (start Device_new)))
       = self (fst (read_legacy_setup (sample counter_broken (Ok "doc")) "inverter"
                      "192.168.0.9" (Some 1) (Some "bezug_batterx")
                      (Some "speicher_batterx") 0 (start Device_new)))
    /\ trace (fst (read_legacy (sample counter_broken (Ok "doc")) "inverter" "192.168.0.9"
                     (Some 1) (Some "bezug_batterx") (Some "speicher_batterx") 0
                     (start Device_new)))
       = trace (fst (read_legacy_setup (sample counter_broken (Ok "doc")) "inverter"
                       "192.168.0.9" (Some 1) (Some "bezug_batterx")
                       (Some "speicher_batterx") 0 (start Device_new))) ++ es
    /\ fetches es = [(currentstate_url "192.168.0.9", 5)]
    /\ updates es = dispatch_calls (sample counter_broken (Ok "doc")) d
                      (currentstate_url "192.168.0.9").
Proof.
  apply (read_legacy_flag_zero_cycle (sample counter_broken (Ok "doc")) "inverter"
           "192.168.0.9" (Some 1) (Some "bezug_batterx") (Some "speicher_batterx")
           (start Device_new) _ _ (Ok tt));
    reflexivity.
Defined.

(** X10 at work: an inverter with id 1 and a counter, the flag set. *)
Lemma read_legacy_ext_inverter_updates_nothing_witness :
  exists es : list (event string numeric),
    self (fst (read_legacy (sample nothing_broken (Ok "doc")) "inverter" "192.168.0.9"
                 (Some 1) (Some "bezug_batterx") None 1 (start Device_new)))
    = self (fst (read_legacy_setup (sample nothing_broken (Ok "doc")) "inverter"
                   "192.168.0.9" (Some 1) (Some "bezug_batterx") None 1
                   (start Device_new)))
    /\ trace (fst (read_legacy (sample nothing_broken (Ok "doc")) "inverter" "192.168.0.9"
                     (Some 1) (Some "bezug_batterx") None 1 (start Device_new)))
       = trace (fst (read_legacy_setup (sample nothing_broken (Ok "doc")) "inverter"
                       "192.168.0.9" (Some 1) (Some "bezug_batterx") None 1
                       (start Device_new))) ++ es
    /\ fetches es = [(currentstate_url "192.168.0.9", 5)]
    /\ updates es = []
    /\ published es = [].
Proof.
  apply (read_legacy_ext_inverter_updates_nothing (sample nothing_broken (Ok "doc"))
           "inverter" "192.168.0.9" (Some 1) (Some "bezug_batterx") None 1
           (start Device_new) _ _ (Ok tt)
           "component1" (sample_component BatterXInverter "inverter" 1)
           [("component0", sample_component BatterXCounter "counter" 0)]).
  - discriminate.
  - reflexivity.
  - reflexivity.
  - reflexivity.
  - reflexivity.
  - reflexivity.
Defined.

(** X11 at work: the same run. *)
Lemma read_legacy_publishes_nothing_witness :
  exists es : list (event string numeric),
    trace (fst (read_legacy (sample nothing_broken (Ok "doc")) "inverter" "192.168.0.9"
                  (Some 1) (Some "bezug_batterx") None 1 (start Device_new)))
    = trace (start Device_new) ++ es
    /\ published es = [].
Proof.
  apply (read_legacy_publishes_nothing (sample nothing_broken (Ok "doc")) "inverter"
           "192.168.0.9" (Some 1) (Some "bezug_batterx") None 1
           (start Device_new) _ (Ok tt));
    reflexivity.
Defined.

(** X12 at work: an inverter with id 0 and a counter: the counter has the
    key of the inverter, and is all the collection holds. *)
Lemma read_legacy_setup_collection_witness :
  read_legacy_setup (sample nothing_broken (Ok "doc")) "inverter" "192.168.0.9" (Some 0)
    (Some "bezug_batterx") None 0 (start Device_new)
  = ({| self := constructed
                  [("component0",
                    {| comp_class := BatterXCounter;
                       comp_device_id := 0;
                       comp_config := sample_setup "counter" (Some 0) |})]
                  sample_BatterX;
        trace := [ LogDebug "BatterX IP-Adresse: 192.168.0.9";
                   LogDebug "BatterX externer WR: 0" ] |},
     Ok tt).
Proof.
  apply (read_legacy_setup_collection (sample nothing_broken (Ok "doc")) "inverter"
           "192.168.0.9" (Some 0) (Some "bezug_batterx") None 0 (start Device_new)
           sample_BatterX inverter BatterXInverter).
  - reflexivity.
  - reflexivity.
  - reflexivity.
  - intros tag m. simpl.
    destruct (String.eqb_spec tag "bat") as [->|_]; [now intros [= <-]|].
    destruct (String.eqb_spec tag "counter") as [->|_]; [now intros [= <-]|].
    destruct (String.eqb_spec tag "inverter") as [->|_]; [now intros [= <-]|].
    destruct (String.eqb_spec tag "external_inverter") as [->|_]; [now intros [= <-]|].
    discriminate.
  - reflexivity.
  - reflexivity.
Defined.
